(** * Ameena AI: the study page's generation workflows

    A shallow embedding of the event handlers of [pages/StudyPage.tsx]
    ([handleGenerate], [handleSendMessage], [handleGenerateFullPresentation],
    [handleGenerateBlockDiagram], [handleGenerateVideo]) and the properties
    the specification states about them.

    The handlers are [async] functions over three collaborators:
    - the content store ([useUploadedContent]: [getStudyMaterialById],
      [updateStudyMaterial]), an interface here, with the store the
      specification describes as one instance;
    - the AI gateway ([geminiService]), a record of functions whose results
      are promises: what the promise settles to, what it reports through
      its progress callback, and what other workflows did to the store
      while the handler was suspended on it;
    - React state ([useState] cells), a record updated by setters.

    A handler is a state-and-exception computation over a world made of the
    store, the React state, the clock and a trace of the gateway calls and
    store writes it performed. *)

From Stdlib Require Import Ascii String ZArith List Lia.
From stdpp Require Import base option list strings gmap fin_maps pretty.

Local Open Scope string_scope.
Local Open Scope list_scope.

(** ** JavaScript values *)

(** [!s] is false exactly for the non-empty string. *)
Definition truthy (s : string) : bool :=
  match s with EmptyString => false | String _ _ => true end.

(** [!x] for [x : string | undefined]. *)
Definition truthy_opt (o : option string) : bool :=
  match o with Some s => truthy s | None => false end.

(** [a || b] on an optional string and a string default. *)
Definition or_else (o : option string) (d : string) : string :=
  match o with
  | Some s => if truthy s then s else d
  | None => d
  end.

(** A text the user types or the chat carries: a JavaScript string as the
    language has it, a sequence of UTF-16 code units, each a number below
    65536. (The other strings of the page, its identifiers, titles,
    generated texts and messages, to which no white space test is
    applied, are [string]s, one character per code unit.) *)
Abbreviation Text := (list N).

(** A literal as a text. *)
Definition js (s : string) : Text :=
  (fun a => N.of_nat (nat_of_ascii a)) <$> list_ascii_of_string s.

(** [!t] is false exactly for the non-empty text. *)
Definition truthy_text (t : Text) : bool :=
  match t with [] => false | _ :: _ => true end.

(** What [String.prototype.trim] strips, the WhiteSpace and LineTerminator
    code points of ECMAScript: U+0009 to U+000D (tab, line feed, vertical
    tab, form feed, carriage return), U+0020 (space), U+00A0 (no-break
    space), U+1680, U+2000 to U+200A, U+2028 (line separator), U+2029
    (paragraph separator), U+202F, U+205F, U+3000 and U+FEFF (byte order
    mark). Each is one code unit. *)
Definition is_whitespace (c : N) : bool :=
  ((0x0009 <=? c) && (c <=? 0x000D)
   || (c =? 0x0020) || (c =? 0x00A0) || (c =? 0x1680)
   || (0x2000 <=? c) && (c <=? 0x200A)
   || (c =? 0x2028) || (c =? 0x2029) || (c =? 0x202F) || (c =? 0x205F)
   || (c =? 0x3000) || (c =? 0xFEFF))%N.

Fixpoint trimStart (t : Text) : Text :=
  match t with
  | [] => []
  | c :: t' => if is_whitespace c then trimStart t' else t
  end.

Definition trimEnd (t : Text) : Text := rev (trimStart (rev t)).

Definition trim (t : Text) : Text := trimEnd (trimStart t).

Definition dquote : string := String (ascii_of_nat 34) EmptyString.
Definition nl : string := String (ascii_of_nat 10) EmptyString.

(** What a [catch] clause receives: an object whose [message] may be
    missing or empty ([new Error()], a thrown string). A rejection with
    [null] or [undefined] is outside this model. *)
Record Thrown := { message : option string }.

Definition Error (msg : string) : Thrown := {| message := Some msg |}.

Inductive Outcome (A : Type) : Type :=
| Returned (a : A)
| Threw (e : Thrown).
Arguments Returned {A} a.
Arguments Threw {A} e.

(** ** Data model ([types.ts]) *)

Inductive NoteLength := SHORT | MEDIUM | DETAILED.

#[global] Instance NoteLength_eq_dec : EqDecision NoteLength.
Proof. solve_decision. Defined.

Definition NoteLength_to_nat (l : NoteLength) : nat :=
  match l with SHORT => 0 | MEDIUM => 1 | DETAILED => 2 end.

Definition NoteLength_of_nat (n : nat) : option NoteLength :=
  match n with
  | 0 => Some SHORT
  | 1 => Some MEDIUM
  | 2 => Some DETAILED
  | _ => None
  end.

#[global] Instance NoteLength_countable : Countable NoteLength.
Proof.
  apply (inj_countable NoteLength_to_nat NoteLength_of_nat).
  intros []; reflexivity.
Defined.

Inductive Sender := user | ai.

Record GroundingSource := {
  uri : string;
  source_title : option string
}.

(** [timestamp] holds the instant (epoch milliseconds) whose ISO rendering
    the source stores. *)
Record ChatMessage := {
  msg_id : string;
  sender : Sender;
  text : Text;
  timestamp : Z;
  groundingSources : option (list GroundingSource)
}.

Record SlideContent := {
  slide_title : string;
  content : list string;
  imagePrompt : string;
  imageUrl : option string
}.

Record PresentationContent := {
  presentation_title : string;
  slides : list SlideContent
}.

Record VideoScene := {
  script : string;
  scene_imagePrompt : string;
  scene_imageUrl : option string
}.

(** [notes]: the texts generated so far, by length. *)
Abbreviation Notes := (gmap NoteLength string).

Record StudyMaterial := {
  material_id : string;
  title : string;
  subject : string;
  topic : string;
  difficulty : string;
  material_type : string;
  extractedText : option string;
  aiSummary : option string;
  aiExplanation : option string;
  notes : option Notes;
  presentationContent : option PresentationContent;
  blockDiagramMermaid : option string;
  videoScenes : option (list VideoScene);
  chatHistory : option (list ChatMessage)
}.

(** The [Partial<StudyMaterial>] objects the handlers pass to
    [updateStudyMaterial]. A field is [Some v] when the object literal
    has the key; [Some None] is a key whose value is [undefined]. *)
Record Patch := {
  set_aiSummary : option (option string);
  set_aiExplanation : option (option string);
  set_notes : option (option Notes);
  set_presentationContent : option (option PresentationContent);
  set_blockDiagramMermaid : option (option string);
  set_videoScenes : option (option (list VideoScene));
  set_chatHistory : option (option (list ChatMessage))
}.

Definition patch_aiSummary (v : option string) : Patch :=
  {| set_aiSummary := Some v; set_aiExplanation := None; set_notes := None;
     set_presentationContent := None; set_blockDiagramMermaid := None;
     set_videoScenes := None; set_chatHistory := None |}.

Definition patch_aiExplanation (v : option string) : Patch :=
  {| set_aiSummary := None; set_aiExplanation := Some v; set_notes := None;
     set_presentationContent := None; set_blockDiagramMermaid := None;
     set_videoScenes := None; set_chatHistory := None |}.

Definition patch_notes (v : option Notes) : Patch :=
  {| set_aiSummary := None; set_aiExplanation := None; set_notes := Some v;
     set_presentationContent := None; set_blockDiagramMermaid := None;
     set_videoScenes := None; set_chatHistory := None |}.

Definition patch_presentationContent (v : option PresentationContent) : Patch :=
  {| set_aiSummary := None; set_aiExplanation := None; set_notes := None;
     set_presentationContent := Some v; set_blockDiagramMermaid := None;
     set_videoScenes := None; set_chatHistory := None |}.

Definition patch_blockDiagramMermaid (v : option string) : Patch :=
  {| set_aiSummary := None; set_aiExplanation := None; set_notes := None;
     set_presentationContent := None; set_blockDiagramMermaid := Some v;
     set_videoScenes := None; set_chatHistory := None |}.

Definition patch_videoScenes (v : option (list VideoScene)) : Patch :=
  {| set_aiSummary := None; set_aiExplanation := None; set_notes := None;
     set_presentationContent := None; set_blockDiagramMermaid := None;
     set_videoScenes := Some v; set_chatHistory := None |}.

Definition patch_chatHistory (v : option (list ChatMessage)) : Patch :=
  {| set_aiSummary := None; set_aiExplanation := None; set_notes := None;
     set_presentationContent := None; set_blockDiagramMermaid := None;
     set_videoScenes := None; set_chatHistory := Some v |}.

(** [{ ...m, ...updates }]: a key of [updates] wins, everything else is
    [m]'s. *)
Definition merge_patch (updates : Patch) (m : StudyMaterial) : StudyMaterial :=
  {| material_id := material_id m;
     title := title m;
     subject := subject m;
     topic := topic m;
     difficulty := difficulty m;
     material_type := material_type m;
     extractedText := extractedText m;
     aiSummary := default (aiSummary m) (set_aiSummary updates);
     aiExplanation := default (aiExplanation m) (set_aiExplanation updates);
     notes := default (notes m) (set_notes updates);
     presentationContent :=
       default (presentationContent m) (set_presentationContent updates);
     blockDiagramMermaid :=
       default (blockDiagramMermaid m) (set_blockDiagramMermaid updates);
     videoScenes := default (videoScenes m) (set_videoScenes updates);
     chatHistory := default (chatHistory m) (set_chatHistory updates) |}.

(** A record with one generated field replaced and every other field
    kept: what a field-scoped write is allowed to do. *)
Definition with_aiExplanation (v : option string) (m : StudyMaterial)
    : StudyMaterial :=
  {| material_id := material_id m; title := title m; subject := subject m;
     topic := topic m; difficulty := difficulty m;
     material_type := material_type m; extractedText := extractedText m;
     aiSummary := aiSummary m; aiExplanation := v; notes := notes m;
     presentationContent := presentationContent m;
     blockDiagramMermaid := blockDiagramMermaid m;
     videoScenes := videoScenes m; chatHistory := chatHistory m |}.

Definition with_notes (v : option Notes) (m : StudyMaterial) : StudyMaterial :=
  {| material_id := material_id m; title := title m; subject := subject m;
     topic := topic m; difficulty := difficulty m;
     material_type := material_type m; extractedText := extractedText m;
     aiSummary := aiSummary m; aiExplanation := aiExplanation m; notes := v;
     presentationContent := presentationContent m;
     blockDiagramMermaid := blockDiagramMermaid m;
     videoScenes := videoScenes m; chatHistory := chatHistory m |}.


Definition with_chatHistory (v : option (list ChatMessage)) (m : StudyMaterial)
    : StudyMaterial :=
  {| material_id := material_id m; title := title m; subject := subject m;
     topic := topic m; difficulty := difficulty m;
     material_type := material_type m; extractedText := extractedText m;
     aiSummary := aiSummary m; aiExplanation := aiExplanation m;
     notes := notes m; presentationContent := presentationContent m;
     blockDiagramMermaid := blockDiagramMermaid m;
     videoScenes := videoScenes m; chatHistory := v |}.

(** [material.notes?.[length]] *)
Definition note_at (length : NoteLength) (m : StudyMaterial) : option string :=
  notes m ≫= fun texts => texts !! length.

(** ** The content store ([contexts/UploadedContentContext]) *)

(** The interface the page gets from [useUploadedContent ()]. An update
    may throw (a store that persists synchronously can). *)
Class ContentStore (S : Type) := {
  getStudyMaterialById : S -> string -> option StudyMaterial;
  updateStudyMaterial : string -> Patch -> S -> Outcome S
}.

(** Modelled from the spec: the content store itself
    ([contexts/UploadedContentContext.tsx] is not among the sources). The
    specification describes a keyed collection of [StudyMaterial] records,
    addressable by id, with get-by-id and partial-update-by-id; every
    mutation is a field-scoped merge keyed by material id, never a
    full-record replace, and a read returns the current record. *)
#[global] Instance MaterialMap : ContentStore (gmap string StudyMaterial) := {
  getStudyMaterialById s i := s !! i;
  updateStudyMaterial i updates s := Returned (alter (merge_patch updates) i s)
}.

(** ** React state of the page ([useState] cells the handlers write) *)

Record Ui := {
  isLoading : gmap string bool;
  error : gmap string (option string);
  chatInput : Text;
  isAwaitingChatResponse : bool;
  videoGenerationProgress : string;
  isGeneratingPresentation : bool;
  presentationGenProgress : string;
  presentationError : option string;
  isGeneratingDiagram : bool;
  diagramError : option string
}.

Definition with_isLoading (f : gmap string bool -> gmap string bool) (u : Ui) : Ui :=
  {| isLoading := f (isLoading u); error := error u; chatInput := chatInput u;
     isAwaitingChatResponse := isAwaitingChatResponse u;
     videoGenerationProgress := videoGenerationProgress u;
     isGeneratingPresentation := isGeneratingPresentation u;
     presentationGenProgress := presentationGenProgress u;
     presentationError := presentationError u;
     isGeneratingDiagram := isGeneratingDiagram u;
     diagramError := diagramError u |}.

Definition with_error
    (f : gmap string (option string) -> gmap string (option string)) (u : Ui) : Ui :=
  {| isLoading := isLoading u; error := f (error u); chatInput := chatInput u;
     isAwaitingChatResponse := isAwaitingChatResponse u;
     videoGenerationProgress := videoGenerationProgress u;
     isGeneratingPresentation := isGeneratingPresentation u;
     presentationGenProgress := presentationGenProgress u;
     presentationError := presentationError u;
     isGeneratingDiagram := isGeneratingDiagram u;
     diagramError := diagramError u |}.

Definition with_chatInput (v : Text) (u : Ui) : Ui :=
  {| isLoading := isLoading u; error := error u; chatInput := v;
     isAwaitingChatResponse := isAwaitingChatResponse u;
     videoGenerationProgress := videoGenerationProgress u;
     isGeneratingPresentation := isGeneratingPresentation u;
     presentationGenProgress := presentationGenProgress u;
     presentationError := presentationError u;
     isGeneratingDiagram := isGeneratingDiagram u;
     diagramError := diagramError u |}.

Definition with_isAwaitingChatResponse (v : bool) (u : Ui) : Ui :=
  {| isLoading := isLoading u; error := error u; chatInput := chatInput u;
     isAwaitingChatResponse := v;
     videoGenerationProgress := videoGenerationProgress u;
     isGeneratingPresentation := isGeneratingPresentation u;
     presentationGenProgress := presentationGenProgress u;
     presentationError := presentationError u;
     isGeneratingDiagram := isGeneratingDiagram u;
     diagramError := diagramError u |}.

Definition with_videoGenerationProgress (v : string) (u : Ui) : Ui :=
  {| isLoading := isLoading u; error := error u; chatInput := chatInput u;
     isAwaitingChatResponse := isAwaitingChatResponse u;
     videoGenerationProgress := v;
     isGeneratingPresentation := isGeneratingPresentation u;
     presentationGenProgress := presentationGenProgress u;
     presentationError := presentationError u;
     isGeneratingDiagram := isGeneratingDiagram u;
     diagramError := diagramError u |}.

Definition with_isGeneratingPresentation (v : bool) (u : Ui) : Ui :=
  {| isLoading := isLoading u; error := error u; chatInput := chatInput u;
     isAwaitingChatResponse := isAwaitingChatResponse u;
     videoGenerationProgress := videoGenerationProgress u;
     isGeneratingPresentation := v;
     presentationGenProgress := presentationGenProgress u;
     presentationError := presentationError u;
     isGeneratingDiagram := isGeneratingDiagram u;
     diagramError := diagramError u |}.

Definition with_presentationGenProgress (v : string) (u : Ui) : Ui :=
  {| isLoading := isLoading u; error := error u; chatInput := chatInput u;
     isAwaitingChatResponse := isAwaitingChatResponse u;
     videoGenerationProgress := videoGenerationProgress u;
     isGeneratingPresentation := isGeneratingPresentation u;
     presentationGenProgress := v;
     presentationError := presentationError u;
     isGeneratingDiagram := isGeneratingDiagram u;
     diagramError := diagramError u |}.

Definition with_presentationError (v : option string) (u : Ui) : Ui :=
  {| isLoading := isLoading u; error := error u; chatInput := chatInput u;
     isAwaitingChatResponse := isAwaitingChatResponse u;
     videoGenerationProgress := videoGenerationProgress u;
     isGeneratingPresentation := isGeneratingPresentation u;
     presentationGenProgress := presentationGenProgress u;
     presentationError := v;
     isGeneratingDiagram := isGeneratingDiagram u;
     diagramError := diagramError u |}.

Definition with_isGeneratingDiagram (v : bool) (u : Ui) : Ui :=
  {| isLoading := isLoading u; error := error u; chatInput := chatInput u;
     isAwaitingChatResponse := isAwaitingChatResponse u;
     videoGenerationProgress := videoGenerationProgress u;
     isGeneratingPresentation := isGeneratingPresentation u;
     presentationGenProgress := presentationGenProgress u;
     presentationError := presentationError u;
     isGeneratingDiagram := v;
     diagramError := diagramError u |}.

Definition with_diagramError (v : option string) (u : Ui) : Ui :=
  {| isLoading := isLoading u; error := error u; chatInput := chatInput u;
     isAwaitingChatResponse := isAwaitingChatResponse u;
     videoGenerationProgress := videoGenerationProgress u;
     isGeneratingPresentation := isGeneratingPresentation u;
     presentationGenProgress := presentationGenProgress u;
     presentationError := presentationError u;
     isGeneratingDiagram := isGeneratingDiagram u;
     diagramError := v |}.

(** What a render closes over: a handler created by one render reads these
    values for as long as it runs, whatever the store holds by then. *)
Record Props := {
  material : option StudyMaterial;
  rendered_chatInput : Text;  (* [chatInput] as the closure sees it *)
  selectedNoteLength : NoteLength;
  useGoogleSearch : bool
}.

(** ** The AI gateway ([services/geminiService]) *)

Inductive GatewayFn :=
| FnGenerateExplanation
| FnGenerateNotes
| FnGeneratePresentationContent
| FnGeneratePresentationImages
| FnGenerateBlockDiagram
| FnGenerateVideoAssets
| FnStartOrGetChat
| FnSendMessageToChat.

(** [{ role, parts: [{ text }] }], the gateway's view of a chat turn. *)
Inductive Role := role_user | role_model.

Record ChatTurn := { role : Role; part_text : Text }.

(** The opaque handle [startOrGetChat] returns. *)
Record ChatSession := { session_handle : nat }.

Record ChatReply := {
  reply_text : Text;
  reply_groundingSources : option (list GroundingSource)
}.

Declare Scope task_scope.

Section Workflows.

Context {S : Type} `{!ContentStore S}.

(** A promise the gateway hands back, seen from the handler that awaits
    it: while the handler is suspended other workflows may write to the
    store ([meanwhile]) and time passes ([elapsed]); the gateway may call
    the progress callback ([reports], in order); then the promise
    resolves or rejects ([settles]). *)
Record Promise (A : Type) := {
  meanwhile : S -> S;
  elapsed : Z;
  reports : list string;
  settles : Outcome A
}.
Arguments meanwhile {A} _ _.
Arguments elapsed {A} _.
Arguments reports {A} _.
Arguments settles {A} _.

Record Gateway := {
  generateExplanation : option string -> Promise string;
  generateNotes : option string -> NoteLength -> Promise string;
  generatePresentationContent : string -> Promise (option PresentationContent);
  generatePresentationImages :
    PresentationContent -> Promise (option PresentationContent);
  generateBlockDiagram : string -> Promise (option string);
  generateVideoAssets : string -> Promise (option (list VideoScene));
  startOrGetChat : string -> option (list ChatTurn) -> Outcome ChatSession;
  sendMessageToChat : ChatSession -> Text -> bool -> Promise ChatReply
}.

(** What a run leaves in its trace: a gateway function was called (with
    the store and the React state as they were at the call), or a store
    update returned. *)
Inductive Event :=
| Called (fn : GatewayFn) (store_then : S) (ui_then : Ui)
| Wrote (i : string) (updates : Patch).

Record World := {
  store : S;
  ui : Ui;
  now : Z;  (* [Date.now ()] *)
  trace : list Event
}.

Definition Task (A : Type) : Type := World -> Outcome A * World.

Definition ret {A} (a : A) : Task A := fun w => (Returned a, w).

(** Sequencing: a statement that throws skips the rest. *)
Definition bind {A B} (t : Task A) (k : A -> Task B) : Task B := fun w =>
  match t w with
  | (Returned a, w') => k a w'
  | (Threw e, w') => (Threw e, w')
  end.

Notation "x ← y ; z" := (bind y (fun x => z))
  (at level 20, y at level 100, z at level 200, only parsing) : task_scope.
Notation "x ;; z" := (bind x (fun _ => z))
  (at level 100, z at level 200, only parsing, right associativity) : task_scope.
Local Open Scope task_scope.

Definition throw {A} (e : Thrown) : Task A := fun w => (Threw e, w).

(** [try { body } catch (e) { handler }] *)
Definition try_catch {A} (body : Task A) (handler : Thrown -> Task A) : Task A :=
  fun w =>
    match body w with
    | (Returned a, w') => (Returned a, w')
    | (Threw e, w') => handler e w'
    end.

(** [try { body } finally { cleanup }]: [cleanup] runs however [body]
    ends; the outcome is [body]'s unless [cleanup] itself throws. *)
Definition try_finally {A} (body : Task A) (cleanup : Task unit) : Task A :=
  fun w =>
    match body w with
    | (o, w') =>
        match cleanup w' with
        | (Returned _, w'') => (o, w'')
        | (Threw e, w'') => (Threw e, w'')
        end
    end.

Definition set_ui (f : Ui -> Ui) : Task unit := fun w =>
  (Returned tt,
   {| store := store w; ui := f (ui w); now := now w; trace := trace w |}).

Definition Date_now : Task Z := fun w => (Returned (now w), w).

(** [getStudyMaterialById (i)] *)
Definition lookupMaterial (i : string) : Task (option StudyMaterial) := fun w =>
  (Returned (getStudyMaterialById (store w) i), w).

(** [updateStudyMaterial (i, updates)] *)
Definition writeMaterial (i : string) (updates : Patch) : Task unit := fun w =>
  match updateStudyMaterial i updates (store w) with
  | Returned s' =>
      (Returned tt,
       {| store := s'; ui := ui w; now := now w;
          trace := (trace w ++ [Wrote i updates])%list |})
  | Threw e => (Threw e, w)
  end.

Definition called (fn : GatewayFn) : Task unit := fun w =>
  (Returned tt,
   {| store := store w; ui := ui w; now := now w;
      trace := (trace w ++ [Called fn (store w) (ui w)])%list |}).

(** A synchronous gateway call. *)
Definition call {A} (fn : GatewayFn) (result : Outcome A) : Task A :=
  called fn;;
  match result with
  | Returned a => ret a
  | Threw e => throw e
  end.

Fixpoint for_each {A} (f : A -> Task unit) (l : list A) : Task unit :=
  match l with
  | [] => ret tt
  | x :: l' => f x;; for_each f l'
  end.

(** The handler is suspended on [p]: the event loop runs the other
    workflows and the clock advances. *)
Definition suspend {A} (p : Promise A) : Task unit := fun w =>
  (Returned tt,
   {| store := meanwhile p (store w); ui := ui w;
      now := (now w + elapsed p)%Z; trace := trace w |}).

(** [await fn (..., onProgress)]: the call is made, the handler is
    suspended, and resumes with the promise's value or in its [catch]. *)
Definition await_with {A} (fn : GatewayFn) (p : Promise A)
    (onProgress : string -> Task unit) : Task A :=
  called fn;;
  suspend p;;
  for_each onProgress (reports p);;
  match settles p with
  | Returned a => ret a
  | Threw e => throw e
  end.

Definition no_callback (progress : string) : Task unit := ret tt.

(** [await fn (...)] for a gateway function that takes no callback. *)
Definition await {A} (fn : GatewayFn) (p : Promise A) : Task A :=
  await_with fn p no_callback.

(** ** The handlers of [StudyPage] *)

Inductive GenerateType := gen_summary | gen_explanation | gen_notes.

(** The string the source's [type] parameter holds. *)
Definition type_key (type : GenerateType) : string :=
  match type with
  | gen_summary => "summary"
  | gen_explanation => "explanation"
  | gen_notes => "notes"
  end.

(** [{ [updateKey]: updateValue }] of [handleGenerate]. *)
Definition generated_patch (type : GenerateType) (m : StudyMaterial)
    (selected : NoteLength) (result : string) : Patch :=
  match type with
  | gen_summary => patch_aiSummary (Some result)
  | gen_explanation => patch_aiExplanation (Some result)
  | gen_notes =>
      patch_notes (Some (<[selected := result]> (default ∅ (notes m))))
  end.

Definition handleGenerate (props : Props) (type : GenerateType)
    (generatorFn : Task string) : Task unit :=
  match material props with
  | Some m =>
      if truthy (material_id m) then
        set_ui (with_isLoading (fun prev => <[type_key type := true]> prev));;
        set_ui (with_error (fun prev => <[type_key type := None]> prev));;
        try_finally
          (try_catch
             (result ← generatorFn;
              writeMaterial (material_id m)
                (generated_patch type m (selectedNoteLength props) result))
             (fun e =>
                set_ui (with_error (fun prev =>
                  <[type_key type :=
                      Some ("Failed to generate " +:+ type_key type
                            +:+ ". Please try again.")]> prev))))
          (set_ui (with_isLoading (fun prev => <[type_key type := false]> prev)))
      else ret tt
  | None => ret tt
  end.

(** The explanation button's [onClick]. *)
Definition handleGenerateExplanation (gw : Gateway) (props : Props) : Task unit :=
  handleGenerate props gen_explanation
    (await FnGenerateExplanation
       (generateExplanation gw (material props ≫= extractedText))).

Definition handleGenerateNotes (gw : Gateway) (props : Props) : Task unit :=
  handleGenerate props gen_notes
    (await FnGenerateNotes
       (generateNotes gw (material props ≫= extractedText)
          (selectedNoteLength props))).

(** The template literal of [handleSendMessage]; an absent
    [extractedText] renders as the word undefined. *)
Definition systemInstruction (m : StudyMaterial) : string :=
  "You are Ameena AI, a friendly and expert study assistant. The user is currently studying the following material titled "
  +:+ dquote +:+ title m +:+ dquote +:+ ". Topic: " +:+ topic m
  +:+ ". Subject: " +:+ subject m +:+ "." +:+ nl +:+ nl
  +:+ "Refer to this content when answering, but do not mention it explicitly unless asked. Be helpful, encouraging, and clear."
  +:+ nl +:+ nl +:+ "---" +:+ nl +:+ "STUDY MATERIAL:" +:+ nl
  +:+ default "undefined" (String.substring 0 4000 <$> extractedText m)
  +:+ "..." +:+ nl +:+ "---".

Definition to_turn (msg : ChatMessage) : ChatTurn :=
  {| role := match sender msg with user => role_user | ai => role_model end;
     part_text := text msg |}.

Definition apology : Text :=
  js "Sorry, I encountered an error. Please check your connection or API key and try again.".

(** [userMessage], [aiMessage] and [errorMessage] of [handleSendMessage],
    built at the instant [t] that [Date.now ()] returns. *)
Definition userMessage_at (textToSend : Text) (t : Z) : ChatMessage :=
  {| msg_id := "msg_" +:+ pretty t; sender := user; text := textToSend;
     timestamp := t; groundingSources := None |}.

Definition aiMessage_at (reply : ChatReply) (t : Z) : ChatMessage :=
  {| msg_id := "msg_" +:+ pretty (t + 1)%Z; sender := ai;
     text := reply_text reply; timestamp := t;
     groundingSources := reply_groundingSources reply |}.

Definition errorMessage_at (t : Z) : ChatMessage :=
  {| msg_id := "err_" +:+ pretty t; sender := ai; text := apology;
     timestamp := t; groundingSources := None |}.

Definition handleSendMessage (gw : Gateway) (props : Props)
    (textOverride : option Text) : Task unit :=
  let textToSend := trim (default (rendered_chatInput props) textOverride) in
  match material props with
  | Some m =>
      if truthy_text textToSend && truthy (material_id m) then
        t0 ← Date_now;
        let userMessage := userMessage_at textToSend t0 in
        writeMaterial (material_id m)
          (patch_chatHistory
             (Some (default [] (chatHistory m) ++ [userMessage])%list));;
        set_ui (with_chatInput []);;
        set_ui (with_isAwaitingChatResponse true);;
        set_ui (with_error (fun prev => <["chat" := None]> prev));;
        try_finally
          (try_catch
             (chat ← call FnStartOrGetChat
                (startOrGetChat gw (systemInstruction m)
                   (map to_turn <$> chatHistory m));
              reply ← await FnSendMessageToChat
                (sendMessageToChat gw chat (text userMessage)
                   (useGoogleSearch props));
              t1 ← Date_now;
              let aiMessage := aiMessage_at reply t1 in
              writeMaterial (material_id m)
                (patch_chatHistory
                   (Some (default [] (chatHistory m)
                          ++ [userMessage; aiMessage])%list)))
             (fun e =>
                t2 ← Date_now;
                let errorMessage := errorMessage_at t2 in
                currentMaterial ← lookupMaterial (material_id m);
                writeMaterial (material_id m)
                  (patch_chatHistory
                     (Some (default [] (currentMaterial ≫= chatHistory)
                            ++ [errorMessage])%list))))
          (set_ui (with_isAwaitingChatResponse false))
      else ret tt
  | None => ret tt
  end.

(** [contentWithImages.slides.some (s => !s.imageUrl)] *)
Definition some_slide_lacks_image (c : PresentationContent) : bool :=
  existsb (fun s => negb (truthy_opt (imageUrl s))) (slides c).

(** [onProgress] of [handleGenerateFullPresentation]. *)
Definition presentation_onProgress (progress : string) : Task unit :=
  set_ui (with_presentationGenProgress ("Step 2/2: " +:+ progress)).

Definition presentation_guard_message : string :=
  "An explanation must be generated first to create a presentation.".

Definition handleGenerateFullPresentation (gw : Gateway) (props : Props)
    : Task unit :=
  let rejected :=
    set_ui (with_presentationError (Some presentation_guard_message)) in
  match material props with
  | Some m =>
      match aiExplanation m with
      | Some explanation =>
          if truthy (material_id m) && truthy explanation then
            set_ui (with_isGeneratingPresentation true);;
            set_ui (with_presentationError None);;
            set_ui (with_presentationGenProgress
                      "Starting presentation generation...");;
            try_finally
              (try_catch
                 (set_ui (with_presentationGenProgress
                            "Step 1/2: Crafting slide content...");;
                  content ← await FnGeneratePresentationContent
                    (generatePresentationContent gw explanation);
                  match content with
                  | None =>
                      throw (Error "The AI failed to generate presentation content.")
                  | Some content =>
                      writeMaterial (material_id m)
                        (patch_presentationContent (Some content));;
                      contentWithImages ← await_with FnGeneratePresentationImages
                        (generatePresentationImages gw content)
                        presentation_onProgress;
                      match contentWithImages with
                      | Some contentWithImages =>
                          writeMaterial (material_id m)
                            (patch_presentationContent (Some contentWithImages));;
                          if some_slide_lacks_image contentWithImages then
                            set_ui (with_presentationError
                                      (Some "Some slide visuals could not be generated."))
                          else ret tt
                      | None =>
                          throw (Error "Failed to generate presentation images.")
                      end
                  end)
                 (fun err =>
                    set_ui (with_presentationError
                              (Some (or_else (message err)
                                       "An unknown error occurred.")));;
                    writeMaterial (material_id m)
                      (patch_presentationContent None)))
              (set_ui (with_isGeneratingPresentation false);;
               set_ui (with_presentationGenProgress EmptyString))
          else rejected
      | None => rejected
      end
  | None => rejected
  end.

Definition explanation_first : string := "Please generate an explanation first.".

Definition handleGenerateBlockDiagram (gw : Gateway) (props : Props)
    : Task unit :=
  let rejected := set_ui (with_diagramError (Some explanation_first)) in
  match material props with
  | Some m =>
      match aiExplanation m with
      | Some explanation =>
          if truthy explanation then
            set_ui (with_isGeneratingDiagram true);;
            set_ui (with_diagramError None);;
            try_finally
              (try_catch
                 (mermaidCode ← await FnGenerateBlockDiagram
                    (generateBlockDiagram gw explanation);
                  writeMaterial (material_id m)
                    (patch_blockDiagramMermaid
                       (Some (or_else mermaidCode "error"))))
                 (fun err =>
                    set_ui (with_diagramError
                              (Some (or_else (message err)
                                       "Failed to generate diagram.")));;
                    writeMaterial (material_id m)
                      (patch_blockDiagramMermaid (Some "error"))))
              (set_ui (with_isGeneratingDiagram false))
          else rejected
      | None => rejected
      end
  | None => rejected
  end.

(** The callback [handleGenerateVideo] passes to the gateway. *)
Definition video_onProgress (progress : string) : Task unit :=
  set_ui (with_videoGenerationProgress progress).

Definition handleGenerateVideo (gw : Gateway) (props : Props) : Task unit :=
  let rejected :=
    set_ui (with_error (fun prev => <["video" := Some explanation_first]> prev)) in
  match material props with
  | Some m =>
      match aiExplanation m with
      | Some explanation =>
          if truthy explanation then
            set_ui (with_isLoading (fun prev => <["video" := true]> prev));;
            set_ui (with_error (fun prev => <["video" := None]> prev));;
            set_ui (with_videoGenerationProgress "Starting video generation...");;
            try_finally
              (try_catch
                 (scenes ← await_with FnGenerateVideoAssets
                    (generateVideoAssets gw explanation) video_onProgress;
                  writeMaterial (material_id m)
                    (patch_videoScenes (Some (default [] scenes))))
                 (fun err =>
                    set_ui (with_error (fun prev =>
                      <["video" := Some (or_else (message err)
                                           "An unknown error occurred.")]> prev))))
              (set_ui (with_isLoading (fun prev => <["video" := false]> prev));;
               set_ui (with_videoGenerationProgress EmptyString))
          else rejected
      | None => rejected
      end
  | None => rejected
  end.

(** ** The in-progress flags *)

(** The features of the page, each with the [useState] cell that says an
    invocation of it is running. *)
Inductive Feature :=
| explanation_feature
| notes_feature
| presentation_feature
| diagram_feature
| video_feature
| chat_feature.

Definition in_progress (f : Feature) (u : Ui) : bool :=
  match f with
  | explanation_feature => default false (isLoading u !! "explanation")
  | notes_feature => default false (isLoading u !! "notes")
  | video_feature => default false (isLoading u !! "video")
  | presentation_feature => isGeneratingPresentation u
  | diagram_feature => isGeneratingDiagram u
  | chat_feature => isAwaitingChatResponse u
  end.

(** The handler behind each feature's control. *)
Definition invoke (f : Feature) (gw : Gateway) (props : Props)
    (textOverride : option Text) : Task unit :=
  match f with
  | explanation_feature => handleGenerateExplanation gw props
  | notes_feature => handleGenerateNotes gw props
  | presentation_feature => handleGenerateFullPresentation gw props
  | diagram_feature => handleGenerateBlockDiagram gw props
  | video_feature => handleGenerateVideo gw props
  | chat_feature => handleSendMessage gw props textOverride
  end.

(** The handler's opening guard lets the invocation through. *)
Definition accepts (f : Feature) (props : Props) (textOverride : option Text)
    : bool :=
  match material props with
  | Some m =>
      match f with
      | explanation_feature | notes_feature => truthy (material_id m)
      | presentation_feature =>
          truthy (material_id m) && truthy_opt (aiExplanation m)
      | diagram_feature | video_feature => truthy_opt (aiExplanation m)
      | chat_feature =>
          truthy_text (trim (default (rendered_chatInput props) textOverride))
          && truthy (material_id m)
      end
  | None => false
  end.

(** The first statement of [handleSendMessage] after its guard: the
    optimistic write of the user's message, as the store answers it. *)
Definition optimistic_write (props : Props) (textOverride : option Text)
    (w : World) : Outcome S :=
  match material props with
  | Some m =>
      updateStudyMaterial (material_id m)
        (patch_chatHistory
           (Some (default [] (chatHistory m)
                  ++ [userMessage_at
                        (trim (default (rendered_chatInput props) textOverride))
                        (now w)])%list))
        (store w)
  | None => Returned (store w)
  end.

Definition is_call (ev : Event) : Prop :=
  match ev with Called _ _ _ => True | Wrote _ _ => False end.

Definition awaited_in_progress (f : Feature) (ev : Event) : Prop :=
  match ev with
  | Called _ _ u => in_progress f u = true
  | Wrote _ _ => True
  end.

(** An invocation that took the world from [w] to [w'] raised the flag
    of [f] and lowered it: it called the gateway, every call it made
    found the flag set, and the flag is clear in [w']. *)
Definition marks_in_progress (f : Feature) (w w' : World) : Prop :=
  exists evs,
    trace w' = (trace w ++ evs)%list
    /\ Exists is_call evs
    /\ Forall (awaited_in_progress f) evs
    /\ in_progress f (ui w') = false.

(** Other workflows did not delete material [i] meanwhile. *)
Definition keeps (i : string) (f : S -> S) : Prop :=
  forall s, is_Some (getStudyMaterialById s i) ->
            is_Some (getStudyMaterialById (f s) i).

End Workflows.

Arguments Build_Promise {S A} _ _ _ _.
Arguments meanwhile {S A} _ _.
Arguments elapsed {S A} _.
Arguments reports {S A} _.
Arguments settles {S A} _.

(** A store that persists every update and has room for [room] more: an
    update with no room left throws. *)
Record Bounded := {
  records : gmap string StudyMaterial;
  room : nat
}.

Definition QuotaExceededError : Thrown :=
  {| message := Some "QuotaExceededError" |}.

#[global] Instance BoundedStore : ContentStore Bounded := {
  getStudyMaterialById s i := records s !! i;
  updateStudyMaterial i updates s :=
    match room s with
    | O => Threw QuotaExceededError
    | Datatypes.S n =>
        Returned {| records := alter (merge_patch updates) i (records s);
                    room := n |}
    end
}.

(** ** Sample inputs *)

Module Sample.

Definition A : ChatMessage :=
  {| msg_id := "msg_100"; sender := user; text := js "What is osmosis?";
     timestamp := 100; groundingSources := None |}.

Definition B : ChatMessage :=
  {| msg_id := "msg_201"; sender := ai; text := js "Water crossing a membrane.";
     timestamp := 200; groundingSources := None |}.

(** A message another workflow appends while a send is in flight. *)
Definition X : ChatMessage :=
  {| msg_id := "msg_1003"; sender := user; text := js "And diffusion?";
     timestamp := 1003; groundingSources := None |}.

Definition biology : StudyMaterial :=
  {| material_id := "m1"; title := "Cells"; subject := "Biology";
     topic := "Membranes"; difficulty := "Beginner"; material_type := "text";
     extractedText := Some "Cells are bounded by membranes.";
     aiSummary := None;
     aiExplanation := Some "A membrane lets some things through.";
     notes := Some {[ SHORT := "Membranes are selective." ]};
     presentationContent := None; blockDiagramMermaid := None;
     videoScenes := None; chatHistory := Some [A; B] |}.

(** The same upload before any explanation was generated. *)
Definition unexplained : StudyMaterial := with_aiExplanation None biology.

Definition shelf : gmap string StudyMaterial := {[ "m1" := biology ]}.

Definition idle : Ui :=
  {| isLoading := ∅; error := ∅; chatInput := js "Why?";
     isAwaitingChatResponse := false; videoGenerationProgress := EmptyString;
     isGeneratingPresentation := false;
     presentationGenProgress := EmptyString; presentationError := None;
     isGeneratingDiagram := false; diagramError := None |}.

Definition page (m : StudyMaterial) : Props :=
  {| material := Some m; rendered_chatInput := js "Why?";
     selectedNoteLength := DETAILED; useGoogleSearch := false |}.

Definition start : World :=
  {| store := shelf; ui := idle; now := 1000; trace := [] |}.

(** The store is full: no update can be persisted. *)
Definition start_full : World :=
  {| store := {| records := shelf; room := 0 |}; ui := idle; now := 1000;
     trace := [] |}.

Definition offline : Thrown := Error "Failed to fetch".

(** A promise during which nothing else touches the store. *)
Definition quiet {S A} (o : Outcome A) : Promise (S := S) A :=
  {| meanwhile := fun s => s; elapsed := 5; reports := []; settles := o |}.

(** A promise during which another workflow appends [X] to the chat
    history of "m1". *)
Definition overtaken {A} (o : Outcome A)
    : Promise (S := gmap string StudyMaterial) A :=
  {| meanwhile :=
       alter (fun m => with_chatHistory
                         (Some (default [] (chatHistory m) ++ [X])%list) m) "m1";
     elapsed := 5; reports := []; settles := o |}.

(** A gateway that answers each call as scripted. *)
Definition scripted {S}
    (text : Promise (S := S) string)
    (deck images : Promise (S := S) (option PresentationContent))
    (diagram : Promise (S := S) (option string))
    (video : Promise (S := S) (option (list VideoScene)))
    (answer : Promise (S := S) ChatReply) : Gateway (S := S) :=
  {| generateExplanation := fun _ => text;
     generateNotes := fun _ _ => text;
     generatePresentationContent := fun _ => deck;
     generatePresentationImages := fun _ => images;
     generateBlockDiagram := fun _ => diagram;
     generateVideoAssets := fun _ => video;
     startOrGetChat := fun _ _ => Returned {| session_handle := 0 |};
     sendMessageToChat := fun _ _ _ => answer |}.

Definition down {S} : Gateway (S := S) :=
  scripted (quiet (Threw offline)) (quiet (Threw offline))
    (quiet (Threw offline)) (quiet (Threw offline)) (quiet (Threw offline))
    (quiet (Threw offline)).

Definition slide (n : string) (url : option string) : SlideContent :=
  {| slide_title := "Slide " +:+ n; content := ["point"];
     imagePrompt := "a cell, slide " +:+ n; imageUrl := url |}.

(** Phase 1's result: two slides, no images yet. *)
Definition deck : PresentationContent :=
  {| presentation_title := "Cells"; slides := [slide "1" None; slide "2" None] |}.

(** Phase 2 completed and produced an image for the first slide only. *)
Definition deck_half : PresentationContent :=
  {| presentation_title := "Cells";
     slides := [slide "1" (Some "data:image/png;base64,AAAA"); slide "2" None] |}.

Definition reply : ChatReply :=
  {| reply_text := js "Because of the gradient."; reply_groundingSources := None |}.

(** A space, a no-break space, a line separator, a byte order mark, a
    line feed and an ideographic space. *)
Definition blank : Text := [0x0020; 0x00A0; 0x2028; 0xFEFF; 0x000A; 0x3000]%N.

(** Text generation works; the diagram comes back empty and the video
    call returns nothing. *)
Definition writer {S} : Gateway (S := S) :=
  scripted (quiet (Returned "Membranes, in depth.")) (quiet (Threw offline))
    (quiet (Threw offline)) (quiet (Returned (Some EmptyString)))
    (quiet (Returned None)) (quiet (Threw offline)).

(** Phase 1 returns [deck]; phase 2 ends as given. *)
Definition illustrator (images : Outcome (option PresentationContent))
    : Gateway (S := gmap string StudyMaterial) :=
  scripted (quiet (Threw offline)) (quiet (Returned (Some deck)))
    (quiet images) (quiet (Threw offline)) (quiet (Threw offline))
    (quiet (Threw offline)).

(** A promise during which another notes generation completes and
    rewrites the SHORT notes of "m1". *)
Definition reshortened {A} (o : Outcome A)
    : Promise (S := gmap string StudyMaterial) A :=
  {| meanwhile :=
       alter (fun m =>
                with_notes
                  (Some (<[SHORT := "Membranes choose what passes."]>
                           (default ∅ (notes m)))) m) "m1";
     elapsed := 5; reports := []; settles := o |}.

(** Text generation works, and the SHORT notes are rewritten while it
    runs. *)
Definition slow_writer : Gateway (S := gmap string StudyMaterial) :=
  scripted (reshortened (Returned "Membranes, in depth."))
    (quiet (Threw offline)) (quiet (Threw offline)) (quiet (Threw offline))
    (quiet (Threw offline)) (quiet (Threw offline)).

(** Only the chat works, and answers as given. *)
Definition tutor (answer : Promise (S := gmap string StudyMaterial) ChatReply)
    : Gateway (S := gmap string StudyMaterial) :=
  scripted (quiet (Threw offline)) (quiet (Threw offline))
    (quiet (Threw offline)) (quiet (Threw offline)) (quiet (Threw offline))
    answer.

(** The React state and the store when phase 2 of a presentation
    generation from [start] is called. *)
Definition ui_crafting : Ui :=
  with_presentationGenProgress "Step 1/2: Crafting slide content..."
    (with_presentationGenProgress "Starting presentation generation..."
       (with_presentationError None (with_isGeneratingPresentation true idle))).

Definition shelf_with_deck : gmap string StudyMaterial :=
  alter (merge_patch (patch_presentationContent (Some deck))) "m1" shelf.

End Sample.

(** ** The rest of the study page *)

(** [arr[i]] for an integral index: [undefined] outside the array. *)
Definition item {A} (l : list A) (i : Z) : option A :=
  if (i <? 0)%Z then None else l !! Z.to_nat i.

(** *** Which diagram notice the page renders *)

(** The three conditionals of the diagram card, on the material the page
    shows and the page's [diagramError]. *)
Definition shows_diagram_error (u : Ui) : bool := truthy_opt (diagramError u).

Definition shows_diagram (m : StudyMaterial) : bool :=
  match blockDiagramMermaid m with
  | Some d => truthy d && negb (String.eqb d "error")
  | None => false
  end.

Definition shows_diagram_warning (m : StudyMaterial) (u : Ui) : bool :=
  match blockDiagramMermaid m with
  | Some d => String.eqb d "error" && negb (truthy_opt (diagramError u))
  | None => false
  end.

(** *** Chat bubbles *)

(** [msg.text.replace(/\n/g, '<br />')], the markup a chat bubble is given
    as its inner HTML. *)
Fixpoint bubble_html (text : Text) : Text :=
  match text with
  | [] => []
  | c :: rest =>
      if (c =? 0x000A)%N then js "<br />" ++ bubble_html rest
      else c :: bubble_html rest
  end.

(** *** Loading the material ([useEffect] on [contentId]) *)

(** The page's [material] cell and the calls it made to [navigate]. *)
Record Mounted := {
  shown : option StudyMaterial;
  navigations : list string
}.

Definition navigate (to : string) (st : Mounted) : Mounted :=
  {| shown := shown st; navigations := navigations st ++ [to] |}.

Definition setMaterial (found : StudyMaterial) (st : Mounted) : Mounted :=
  {| shown := Some found; navigations := navigations st |}.

Definition loadMaterial {S} `{!ContentStore S} (contentId : option string)
    (s : S) (st : Mounted) : Mounted :=
  match contentId with
  | Some c =>
      if truthy c then
        match getStudyMaterialById s c with
        | Some foundMaterial => setMaterial foundMaterial st
        | None => navigate "/" st
        end
      else navigate "/" st
  | None => navigate "/" st
  end.

(** [const { contentId } = useParams ()]. *)
Definition useParams_contentId (params : gmap string string) : option string :=
  params !! "contentId".

(** *** The slide viewer ([PresentationViewer]) *)

Module PresentationViewer.

Definition currentSlide (presentation : PresentationContent) (i : Z)
    : option SlideContent :=
  item (slides presentation) i.

Definition previous (i : Z) : Z := Z.max 0 (i - 1).

Definition next (presentation : PresentationContent) (i : Z) : Z :=
  Z.min (Z.of_nat (length (slides presentation)) - 1) (i + 1).

(** The [disabled] attribute of the two buttons. *)
Definition previous_disabled (i : Z) : bool := (i =? 0)%Z.

Definition next_disabled (presentation : PresentationContent) (i : Z) : bool :=
  (i =? Z.of_nat (length (slides presentation)) - 1)%Z.

Inductive Click := ClickPrevious | ClickNext.

Definition click (presentation : PresentationContent) (i : Z) (c : Click) : Z :=
  match c with
  | ClickPrevious => previous i
  | ClickNext => next presentation i
  end.

End PresentationViewer.

(** *** The narrated player ([VideoPlayer]) *)

Module VideoPlayer.

(** What an utterance's [onend] does: the one [speakCurrent] creates
    advances to the next scene, the one the advance creates only stops. *)
Inductive OnEnd := Advance | Stop.

(** Calls on [window.speechSynthesis], and the [TypeError] that reading
    [script] off a missing scene would raise. *)
Inductive SpeechCall :=
| Cancel
| Speak (script : string) (onend : OnEnd)
| TypeError.

Record Player := {
  currentSceneIndex : Z;
  isPlaying : bool;
  synthesis : list SpeechCall;   (* calls made so far, oldest first *)
  timeouts : list Z              (* [next] of each pending [setTimeout] *)
}.

Definition mounted : Player :=
  {| currentSceneIndex := 0; isPlaying := false; synthesis := [];
     timeouts := [] |}.

Inductive PlayerEvent :=
| ClickPrevious
| ClickPlayPause
| ClickNext
| UtteranceEnded (onend : OnEnd)
| TimeoutFired
| Unmounted.

(** One event on the player. The handlers are taken as written: that a
    disabled or unrendered button receives no click, and that an [onend]
    fires only for an utterance that was spoken, only removes event
    sequences. A state updater is run once per update. *)
Definition handle (scenes : list VideoScene) (st : Player) (ev : PlayerEvent)
    : Player :=
  let i := currentSceneIndex st in
  let size := Z.of_nat (length scenes) in
  match ev with
  | ClickPrevious =>
      {| currentSceneIndex := Z.max 0 (i - 1); isPlaying := false;
         synthesis := synthesis st ++ [Cancel]; timeouts := timeouts st |}
  | ClickNext =>
      {| currentSceneIndex := Z.min (size - 1) (i + 1); isPlaying := false;
         synthesis := synthesis st ++ [Cancel]; timeouts := timeouts st |}
  | ClickPlayPause =>
      match item scenes i with
      | None => st
      | Some currentScene =>
          if isPlaying st then
            {| currentSceneIndex := i; isPlaying := false;
               synthesis := synthesis st ++ [Cancel];
               timeouts := timeouts st |}
          else
            {| currentSceneIndex := i; isPlaying := true;
               synthesis :=
                 synthesis st ++ [Cancel; Speak (script currentScene) Advance];
               timeouts := timeouts st |}
      end
  | UtteranceEnded Advance =>
      let next := (i + 1)%Z in
      if (next <? size)%Z then
        {| currentSceneIndex := next; isPlaying := true;
           synthesis := synthesis st; timeouts := timeouts st ++ [next] |}
      else
        {| currentSceneIndex := i; isPlaying := false;
           synthesis := synthesis st; timeouts := timeouts st |}
  | UtteranceEnded Stop =>
      {| currentSceneIndex := i; isPlaying := false;
         synthesis := synthesis st; timeouts := timeouts st |}
  | TimeoutFired =>
      match timeouts st with
      | [] => st
      | next :: pending =>
          {| currentSceneIndex := i; isPlaying := isPlaying st;
             synthesis :=
               synthesis st
               ++ [Cancel;
                   match item scenes next with
                   | Some scene => Speak (script scene) Stop
                   | None => TypeError
                   end];
             timeouts := pending |}
      end
  | Unmounted =>
      {| currentSceneIndex := i; isPlaying := isPlaying st;
         synthesis := synthesis st ++ [Cancel]; timeouts := timeouts st |}
  end.

(** Reading the calls oldest first: no [TypeError], and every [Speak]
    comes right after a [Cancel]. *)
Fixpoint exclusive (cancelled : bool) (calls : list SpeechCall) : bool :=
  match calls with
  | [] => true
  | Cancel :: rest => exclusive true rest
  | Speak _ _ :: rest => cancelled && exclusive false rest
  | TypeError :: _ => false
  end.

End VideoPlayer.

(** *** Narration voices ([loadVoices] and the voice select) *)

Module Voices.

Record Voice := { name : string; lang : string }.

(** [hay.includes (needle)] *)
Fixpoint includes (needle hay : string) : bool :=
  match hay with
  | EmptyString => String.prefix needle EmptyString
  | String _ rest => String.prefix needle hay || includes needle rest
  end.

(** The filter of [loadVoices]. *)
Definition english (v : Voice) : bool :=
  String.prefix "en" (lang v)
  && negb (includes "Google" (name v))
  && negb (includes "Microsoft" (name v)).

Record Cells := {
  availableVoices : list Voice;
  selectedVoice : option Voice
}.

Definition unloaded : Cells :=
  {| availableVoices := []; selectedVoice := None |}.

(** [loadVoices] when [getVoices ()] returns [voices]. *)
Definition loadVoices (voices : list Voice) (st : Cells) : Cells :=
  let englishVoices := List.filter english voices in
  {| availableVoices := englishVoices;
     selectedVoice :=
       match englishVoices with
       | first :: _ => Some first
       | [] => selectedVoice st
       end |}.

(** The select's [onChange] with [e.target.value = value]. *)
Definition onChange (value : string) (st : Cells) : Cells :=
  match List.find (fun v => String.eqb (name v) value) (availableVoices st) with
  | Some voice =>
      {| availableVoices := availableVoices st; selectedVoice := Some voice |}
  | None => st
  end.

Inductive Happened :=
| VoicesChanged (voices : list Voice)
| Chose (value : string).

Definition after (st : Cells) (h : Happened) : Cells :=
  match h with
  | VoicesChanged voices => loadVoices voices st
  | Chose value => onChange value st
  end.

End Voices.

(** *** Exporting the deck ([handleDownloadPptx]) *)

Module Pptx.

(** ASCII letters and digits: the complement of [/[^a-z0-9]/gi]. A
    character is a code unit below 256. *)
Definition alphanumeric (a : ascii) : bool :=
  let n := nat_of_ascii a in
  (Nat.leb 48 n && Nat.leb n 57) || (Nat.leb 65 n && Nat.leb n 90)
  || (Nat.leb 97 n && Nat.leb n 122).

Definition toLowerCase_char (a : ascii) : ascii :=
  let n := nat_of_ascii a in
  if Nat.leb 65 n && Nat.leb n 90 then ascii_of_nat (n + 32) else a.

Fixpoint map_chars (f : ascii -> ascii) (s : string) : string :=
  match s with
  | EmptyString => EmptyString
  | String a rest => String (f a) (map_chars f rest)
  end.

(** [(title || 'presentation').replace(/[^a-z0-9]/gi, '_').toLowerCase()] *)
Definition safeFilename (title : string) : string :=
  map_chars toLowerCase_char
    (map_chars (fun a => if alphanumeric a then a else "_"%char)
       (or_else (Some title) "presentation")).

(** The options objects. Positions and heights are in hundredths of an
    inch ([x: 0.5] is 50); a key the literal does not have is [None]. *)
Record TextOptions := {
  x : nat; y : nat; w : string; h : nat;
  fontSize : nat;
  bold : option bool;
  align : option string;
  bullet : option bool;
  color : option string;
  outline : option (nat * string)
}.

Inductive Element :=
| addText (text : string) (options : TextOptions)
| addImage (data : string) (x y : nat) (w h : string).

Record File := {
  layout : string;
  pages : list (list Element);
  fileName : string
}.

Definition titleSlide (title : string) : list Element :=
  [addText title
     {| x := 50; y := 250; w := "90%"; h := 100; fontSize := 44;
        bold := Some true; align := Some "center"; bullet := None; color := None;
        outline := None |};
   addText "By Ameena AI"
     {| x := 50; y := 350; w := "90%"; h := 100; fontSize := 20;
        bold := None; align := Some "center"; bullet := None; color := None;
        outline := None |}].

Definition pptxSlide (slide : SlideContent) : list Element :=
  (match imageUrl slide with
   | Some url => if truthy url then [addImage url 0 0 "100%" "100%"] else []
   | None => []
   end)
  ++ [addText (slide_title slide)
        {| x := 50; y := 25; w := "90%"; h := 75; fontSize := 32;
           bold := Some true; align := None; bullet := None; color := Some "FFFFFF";
           outline := Some (1, "000000") |};
      addText (String.concat nl (content slide))
        {| x := 50; y := 120; w := "50%"; h := 400; fontSize := 18;
           bold := None; align := None; bullet := Some true;
           color := Some "FFFFFF"; outline := Some (1, "000000") |}].

(** The file [handleDownloadPptx] writes, if it writes one. *)
Definition handleDownloadPptx (material : option StudyMaterial) : option File :=
  match material ≫= presentationContent with
  | None => None
  | Some presentation =>
      Some {| layout := "LAYOUT_16x9";
              pages := titleSlide (presentation_title presentation)
                       :: map pptxSlide (slides presentation);
              fileName :=
                safeFilename (default EmptyString (title <$> material))
                +:+ ".pptx" |}
  end.

Definition is_image (e : Element) : bool :=
  match e with addImage _ _ _ _ _ => true | addText _ _ => false end.

End Pptx.

(** ** The application shell ([App.tsx]) *)

Module App.

(** [isActive] of [Sidebar], at [location.pathname = pathname]. *)
Definition isActive (pathname path : string) : bool :=
  if String.eqb path "/" then
    String.eqb pathname "/" || String.eqb pathname EmptyString
  else String.prefix path pathname.

Definition navItems : list (string * string) :=
  [("/", "Home"); ("/dashboard", "Dashboard")].

(** What the theme code reads and writes in the browser. *)
Record Browser := {
  localStorage : gmap string string;
  prefers_dark : bool;          (* [matchMedia ('(prefers-color-scheme: dark)').matches] *)
  data_theme : option string    (* the [data-theme] attribute of the root element *)
}.

(** The initializer of [isDarkMode]. *)
Definition initialDarkMode (b : Browser) : bool :=
  match localStorage b !! "theme" with
  | Some saved => if truthy saved then String.eqb saved "dark" else prefers_dark b
  | None => prefers_dark b
  end.

(** The effect on [isDarkMode]. *)
Definition applyTheme (isDarkMode : bool) (b : Browser) : Browser :=
  let theme := if isDarkMode then "dark" else "light" in
  {| localStorage := <["theme" := theme]> (localStorage b);
     prefers_dark := prefers_dark b;
     data_theme := Some theme |}.

(** Mounting [App]: the state is initialized, then the effect runs. *)
Definition mount (b : Browser) : Browser := applyTheme (initialDarkMode b) b.

Inductive Page := HomePage | StudyPage | QuizPage | DashboardPage.

(** The [Route] elements, in order. *)
Definition routes : list (string * Page) :=
  [("/", HomePage); ("/study/:id", StudyPage); ("/quiz/:id", QuizPage);
   ("/dashboard", DashboardPage)].

(** The pieces of a route path between its slashes. *)
Fixpoint segments_from (current : string) (path : string) : list string :=
  match path with
  | EmptyString => [String.rev current]
  | String a rest =>
      if Ascii.eqb a "/"%char then String.rev current :: segments_from EmptyString rest
      else segments_from (String a current) rest
  end.

Definition segments (path : string) : list string :=
  segments_from EmptyString path.

(** The names a route path binds: its segments that start with a
    colon. *)
Definition param_names (path : string) : list string :=
  omap (fun segment =>
          match segment with
          | String a name => if Ascii.eqb a ":"%char then Some name else None
          | EmptyString => None
          end)
       (segments path).

End App.

(** ** Predicates the further properties are stated with *)

(** The one field a feature's handler writes. *)
Definition writes_only (f : Feature) (updates : Patch) : Prop :=
  match f with
  | explanation_feature => exists v, updates = patch_aiExplanation v
  | notes_feature => exists v, updates = patch_notes v
  | presentation_feature => exists v, updates = patch_presentationContent v
  | diagram_feature => exists v, updates = patch_blockDiagramMermaid v
  | video_feature => exists v, updates = patch_videoScenes v
  | chat_feature => exists v, updates = patch_chatHistory v
  end.

(** A write of the trace goes to the material the render captured and
    carries the feature's field only. *)
Definition write_within {S} (f : Feature) (props : Props) (ev : Event (S := S))
    : Prop :=
  match ev with
  | Wrote i updates =>
      (exists m, material props = Some m /\ i = material_id m)
      /\ writes_only f updates
  | Called _ _ _ => True
  end.

(** The banner text of a failed [handleGenerate]. *)
Definition generation_failed (type : GenerateType) : string :=
  "Failed to generate " +:+ type_key type +:+ ". Please try again.".

(** What a gateway call of a chat send finds: the store as the first
    write left it, the input emptied, the awaiting flag set, no chat
    error. *)
Definition sees_the_sent_message {S} (written : S) (ev : Event (S := S))
    : Prop :=
  match ev with
  | Called _ s u =>
      s = written
      /\ chatInput u = []
      /\ isAwaitingChatResponse u = true
      /\ error u !! "chat" = Some None
  | Wrote _ _ => True
  end.

(** What both phases of a presentation generation deliver together. *)
Definition presentation_delivered
    (gw : Gateway (S := gmap string StudyMaterial)) (explanation : string)
    : option PresentationContent :=
  match settles (generatePresentationContent gw explanation) with
  | Returned (Some content) =>
      match settles (generatePresentationImages gw content) with
      | Returned (Some contentWithImages) => Some contentWithImages
      | _ => None
      end
  | _ => None
  end.

(** The message of whatever made a presentation generation fail. *)
Definition presentation_failure
    (gw : Gateway (S := gmap string StudyMaterial)) (explanation : string)
    : option string :=
  match settles (generatePresentationContent gw explanation) with
  | Returned (Some content) =>
      match settles (generatePresentationImages gw content) with
      | Returned (Some _) => None
      | Returned None => Some "Failed to generate presentation images."
      | Threw err => Some (or_else (message err) "An unknown error occurred.")
      end
  | Returned None => Some "The AI failed to generate presentation content."
  | Threw err => Some (or_else (message err) "An unknown error occurred.")
  end.

(** Every script handed to the synthesizer is a scene's. *)
Definition narrates (scenes : list VideoScene) (c : VideoPlayer.SpeechCall) : Prop :=
  match c with
  | VideoPlayer.Speak s _ => exists scene, In scene scenes /\ script scene = s
  | _ => True
  end.

(** What every event of the player preserves. *)
Definition player_ok (scenes : list VideoScene) (st : VideoPlayer.Player) : Prop :=
  VideoPlayer.exclusive false (VideoPlayer.synthesis st) = true
  /\ Forall (narrates scenes) (VideoPlayer.synthesis st)
  /\ Forall (fun n => is_Some (item scenes n)) (VideoPlayer.timeouts st)
  /\ (-1 <= VideoPlayer.currentSceneIndex st)%Z
  /\ (scenes <> [] -> is_Some (item scenes (VideoPlayer.currentSceneIndex st))).

(** What every event of the voice cells preserves. *)
Definition voices_ok (st : Voices.Cells) : Prop :=
  Forall (fun v => Voices.english v = true) (Voices.availableVoices st)
  /\ (Voices.availableVoices st <> [] ->
      exists v, Voices.selectedVoice st = Some v
                /\ In v (Voices.availableVoices st)).

(** A lower-case ASCII letter, a digit or an underscore. *)
Definition filename_char (a : ascii) : bool :=
  let n := nat_of_ascii a in
  (Nat.leb 48 n && Nat.leb n 57) || (Nat.leb 97 n && Nat.leb n 122)
  || Nat.eqb n 95.

(** One character through the replace and the lower-casing of
    [safeFilename]. *)
Definition sanitize (a : ascii) : ascii :=
  Pptx.toLowerCase_char (if Pptx.alphanumeric a then a else "_"%char).

Definition line_feed : N := 0x000A.

(** ** Further sample inputs *)

Module Tour.

Import Sample.

(** The user's message of a send from [start]. *)
Definition M : ChatMessage := userMessage_at (js "Why?") 1000.

(** The chat session cannot be started. *)
Definition no_session {S} : Gateway (S := S) :=
  {| generateExplanation := fun _ => quiet (Threw offline);
     generateNotes := fun _ _ => quiet (Threw offline);
     generatePresentationContent := fun _ => quiet (Threw offline);
     generatePresentationImages := fun _ => quiet (Threw offline);
     generateBlockDiagram := fun _ => quiet (Threw offline);
     generateVideoAssets := fun _ => quiet (Threw offline);
     startOrGetChat := fun _ _ => Threw offline;
     sendMessageToChat := fun _ _ _ => quiet (Returned reply) |}.

(** The store has room for one more update. *)
Definition start_tight : World :=
  {| store := {| records := shelf; room := 1 |}; ui := idle; now := 1000;
     trace := [] |}.

Definition explanation : string := "A membrane lets some things through.".

(** Two narrated scenes. *)
Definition film : list VideoScene :=
  [{| script := "One."; scene_imagePrompt := "a cell"; scene_imageUrl := None |};
   {| script := "Two."; scene_imagePrompt := "a membrane";
      scene_imageUrl := None |}].

(** The voices a browser reports. *)
Definition installed : list Voices.Voice :=
  [{| Voices.name := "Google US English"; Voices.lang := "en-US" |};
   {| Voices.name := "Alex"; Voices.lang := "en-US" |};
   {| Voices.name := "Daniel"; Voices.lang := "en-GB" |};
   {| Voices.name := "Amelie"; Voices.lang := "fr-CA" |}].

(** [biology] once the half-illustrated deck is stored. *)
Definition illustrated : StudyMaterial :=
  merge_patch (patch_presentationContent (Some deck_half)) biology.

End Tour.


(** * Properties *)

(** ** Running a handler symbolically *)

(** Unfolds a handler down to the store's answers and the promises'
    outcomes. *)
Ltac run :=
  cbv beta iota zeta delta
    [handleGenerate handleGenerateExplanation handleGenerateNotes
     handleSendMessage handleGenerateFullPresentation
     handleGenerateBlockDiagram handleGenerateVideo invoke
     try_finally try_catch bind ret throw set_ui Date_now lookupMaterial
     writeMaterial called call suspend await await_with].

Ltac run_on_map :=
  cbv beta iota zeta delta
    [handleGenerate handleGenerateExplanation handleGenerateNotes
     handleSendMessage handleGenerateFullPresentation
     handleGenerateBlockDiagram handleGenerateVideo invoke
     try_finally try_catch bind ret throw set_ui Date_now lookupMaterial
     writeMaterial called call suspend await await_with
     updateStudyMaterial getStudyMaterialById MaterialMap].

(** Splits [H : e1 :: ... :: en = before ++ ev :: after] into the places
    where [ev] can stand. *)
Ltac peel H before :=
  destruct before as [|? before]; simpl in H;
  [ try discriminate H
  | first [ discriminate H | injection H as <- H; peel H before ] ].

Lemma trimStart_blank (t : Text) :
  Forall (fun c => is_whitespace c = true) t -> trimStart t = [].
Proof.
  induction t as [|c t IH]; intros Hall; [reflexivity|].
  inversion Hall as [|? ? Hc Hrest]; subst.
  cbn [trimStart]. rewrite Hc. apply IH, Hrest.
Qed.

(** The code units [is_whitespace] accepts, one by one. *)
Lemma is_whitespace_spec (c : N) :
  is_whitespace c = true
  <-> In c [0x0009; 0x000A; 0x000B; 0x000C; 0x000D; 0x0020; 0x00A0; 0x1680;
            0x2000; 0x2001; 0x2002; 0x2003; 0x2004; 0x2005; 0x2006; 0x2007;
            0x2008; 0x2009; 0x200A; 0x2028; 0x2029; 0x202F; 0x205F; 0x3000;
            0xFEFF]%N.
Proof.
  unfold is_whitespace.
  rewrite !orb_true_iff, !andb_true_iff, !N.eqb_eq, !N.leb_le.
  cbn [In]. lia.
Qed.

(** What [trimStart] leaves starts with a code unit that is not white
    space. *)
Lemma trimStart_keeps_a_letter (t : Text) c rest :
  trimStart t = c :: rest -> is_whitespace c = false.
Proof.
  induction t as [|d t IH]; [discriminate|].
  cbn [trimStart]. destruct (is_whitespace d) eqn:Hd; [exact IH|].
  intros [= <- _]. exact Hd.
Qed.

Lemma trimStart_empty (t : Text) :
  trimStart t = [] -> Forall (fun c => is_whitespace c = true) t.
Proof.
  induction t as [|d t IH]; [constructor|].
  cbn [trimStart]. destruct (is_whitespace d) eqn:Hd; [|discriminate].
  intros Ht. constructor; [exact Hd | exact (IH Ht)].
Qed.

(** A text of white space only trims to nothing. *)
Lemma trim_blank (t : Text) :
  Forall (fun c => is_whitespace c = true) t -> trim t = [].
Proof.
  intros Hall. unfold trim, trimEnd. rewrite (trimStart_blank t Hall).
  reflexivity.
Qed.

(** The texts that trim to nothing are exactly the texts of white space
    only. *)
Lemma trim_empty (t : Text) :
  trim t = [] <-> Forall (fun c => is_whitespace c = true) t.
Proof.
  split; [|apply trim_blank].
  unfold trim, trimEnd. intros Hempty.
  apply trimStart_empty.
  destruct (trimStart t) as [|c rest] eqn:Hstart; [reflexivity|].
  exfalso.
  assert (Hc : is_whitespace c = false)
    by (eapply trimStart_keeps_a_letter; exact Hstart).
  assert (Hrev : trimStart (rev (c :: rest)) = []).
  { destruct (trimStart (rev (c :: rest))) as [|d l] eqn:Hd; [reflexivity|].
    apply (f_equal (@length N)) in Hempty.
    rewrite length_rev in Hempty. discriminate. }
  apply trimStart_empty in Hrev.
  rewrite Forall_forall in Hrev.
  specialize (Hrev c). rewrite Hc in Hrev.
  assert (false = true); [|discriminate].
  apply Hrev. apply list_elem_of_In, in_rev. rewrite rev_involutive.
  left. reflexivity.
Qed.

Lemma or_else_nonempty (o : option string) (d : string) :
  d <> EmptyString -> or_else o d <> EmptyString.
Proof.
  intros Hd. unfold or_else. destruct o as [[|c s]|]; simpl; try exact Hd.
  discriminate.
Qed.


Lemma presentationError_after_progress (l : list string) (u : Ui) :
  presentationError
    (foldl (fun u x => with_presentationGenProgress ("Step 2/2: " +:+ x) u) u l)
  = presentationError u.
Proof.
  revert u. induction l as [|x l IH]; intros u; [reflexivity|].
  simpl. rewrite IH. reflexivity.
Qed.

Section AnyStore.

Context {S : Type} `{!ContentStore S}.

Implicit Types (w : World (S := S)) (gw : Gateway (S := S)).

(** Progress callbacks only set React state: they cannot fail, and they
    leave the store, the clock and the trace alone. *)
Lemma for_each_set_ui {A} (f : A -> Ui -> Ui) (l : list A) w :
  for_each (fun x => set_ui (f x)) l w
  = (Returned tt,
     {| store := store w; ui := foldl (fun u x => f x u) (ui w) l;
        now := now w; trace := trace w |}).
Proof.
  revert w. induction l as [|x l IH]; intros w.
  - destruct w; reflexivity.
  - simpl. unfold bind at 1. unfold set_ui at 1. rewrite IH. reflexivity.
Qed.

Lemma for_each_no_callback (l : list string) w :
  for_each no_callback l w = (Returned tt, w).
Proof.
  induction l as [|x l IH]; [reflexivity|].
  simpl. unfold bind at 1. unfold no_callback at 1. exact IH.
Qed.

Lemma for_each_presentation_onProgress (l : list string) w :
  for_each presentation_onProgress l w
  = (Returned tt,
     {| store := store w;
        ui := foldl (fun u x =>
                       with_presentationGenProgress ("Step 2/2: " +:+ x) u)
                (ui w) l;
        now := now w; trace := trace w |}).
Proof.
  apply (for_each_set_ui
           (fun x => with_presentationGenProgress ("Step 2/2: " +:+ x))).
Qed.

Lemma for_each_video_onProgress (l : list string) w :
  for_each video_onProgress l w
  = (Returned tt,
     {| store := store w;
        ui := foldl (fun u x => with_videoGenerationProgress x u) (ui w) l;
        now := now w; trace := trace w |}).
Proof. apply (for_each_set_ui with_videoGenerationProgress). Qed.

(** Resumes a suspended handler: runs the callbacks, then splits on how
    the promise settled and on how the store answered. *)
Ltac resume :=
  repeat
    (match goal with
     | |- context [for_each no_callback _ _] => rewrite for_each_no_callback
     | |- context [for_each presentation_onProgress _ _] =>
         rewrite for_each_presentation_onProgress
     | |- context [for_each video_onProgress _ _] =>
         rewrite for_each_video_onProgress
     | |- context [match settles ?p with _ => _ end] =>
         destruct (settles p) as [?|?] eqn:?
     | |- context [match updateStudyMaterial ?i ?u ?s with _ => _ end] =>
         destruct (updateStudyMaterial i u s) as [?|?] eqn:?
     | |- context [match startOrGetChat ?g ?i ?h with _ => _ end] =>
         destruct (startOrGetChat g i h) as [?|?] eqn:?
     | |- context [if some_slide_lacks_image ?c then _ else _] =>
         destruct (some_slide_lacks_image c) eqn:?
     | |- context [match ?o with Some _ => _ | None => _ end] =>
         is_var o; destruct o
     end; cbn [fst snd store ui now trace]).

Ltac close_protocol :=
  cbn [fst snd store ui now trace]; rewrite <- ?app_assoc;
  eexists; split; [reflexivity|];
  split;
  [ first [ apply Exists_cons_hd; exact I
          | apply Exists_cons_tl; apply Exists_cons_hd; exact I ]
  | split;
    [ repeat constructor; simpl; rewrite ?lookup_insert_eq; reflexivity
    | simpl; rewrite ?lookup_insert_eq; reflexivity ] ].

(** C9. Sending a chat message whose text is empty once trimmed, or
    sending with no material loaded, does nothing at all: the handler
    returns with the world as it found it, so no gateway function was
    called and no store write was made (the trace is unchanged), the chat
    history is what it was (the store is unchanged), and the
    awaiting-response flag and the chat error are untouched (the React
    state is unchanged). This holds for every store and every gateway.
    The texts that are empty once trimmed are the texts made of white
    space only ([trim_empty]), white space being what ECMAScript's [trim]
    strips ([is_whitespace_spec]). *)
Theorem handleSendMessage_noop gw props textOverride w :
  trim (default (rendered_chatInput props) textOverride) = []
  \/ material props = None ->
  handleSendMessage gw props textOverride w = (Returned tt, w).
Proof.
  intros [Hempty | Hnone]; unfold handleSendMessage.
  - rewrite Hempty. destruct (material props); reflexivity.
  - rewrite Hnone. reflexivity.
Qed.

(** C4. Presentation, diagram and video generation on a material whose
    [aiExplanation] is absent or empty each return at once: the trace is
    unchanged (no gateway function was called), the store is unchanged
    (so [presentationContent], [blockDiagramMermaid] and [videoScenes] are
    what they were), and the only change is the feature's own
    precondition message, in [presentationError], [diagramError] and
    [error.video]. *)
Theorem generation_requires_explanation gw props m w :
  material props = Some m ->
  truthy_opt (aiExplanation m) = false ->
  handleGenerateFullPresentation gw props w
  = (Returned tt,
     {| store := store w;
        ui := with_presentationError (Some presentation_guard_message) (ui w);
        now := now w; trace := trace w |})
  /\ handleGenerateBlockDiagram gw props w
     = (Returned tt,
        {| store := store w;
           ui := with_diagramError (Some explanation_first) (ui w);
           now := now w; trace := trace w |})
  /\ handleGenerateVideo gw props w
     = (Returned tt,
        {| store := store w;
           ui := with_error
                   (fun prev => <["video" := Some explanation_first]> prev)
                   (ui w);
           now := now w; trace := trace w |}).
Proof.
  intros Hm Hexp.
  unfold handleGenerateFullPresentation, handleGenerateBlockDiagram,
    handleGenerateVideo.
  rewrite Hm. destruct (aiExplanation m) as [explanation|].
  - simpl in Hexp. rewrite Hexp, andb_false_r. repeat split.
  - repeat split.
Qed.

Lemma generate_raises_flag gw props o w f :
  f = explanation_feature \/ f = notes_feature ->
  accepts f props o = true ->
  marks_in_progress f w (snd (invoke f gw props o w)).
Proof.
  unfold accepts.
  destruct (material props) as [m|] eqn:Hm; [|intros _; discriminate].
  intros [-> | ->] Hid; run; rewrite Hm, Hid; resume; close_protocol.
Qed.

Lemma presentation_raises_flag gw props o w :
  accepts presentation_feature props o = true ->
  marks_in_progress presentation_feature w
    (snd (invoke presentation_feature gw props o w)).
Proof.
  unfold accepts.
  destruct (material props) as [m|] eqn:Hm; [|discriminate].
  destruct (aiExplanation m) as [explanation|] eqn:He;
    [|rewrite andb_false_r; discriminate].
  intros Hok. run. rewrite Hm, He. simpl in Hok. rewrite Hok.
  resume; close_protocol.
Qed.

Lemma diagram_video_raise_flag gw props o w f :
  f = diagram_feature \/ f = video_feature ->
  accepts f props o = true ->
  marks_in_progress f w (snd (invoke f gw props o w)).
Proof.
  unfold accepts.
  destruct (material props) as [m|] eqn:Hm; [|intros _; discriminate].
  destruct (aiExplanation m) as [explanation|] eqn:He;
    [|intros [-> | ->]; discriminate].
  intros [-> | ->] Hok; simpl in Hok; run; rewrite Hm, He, Hok;
    resume; close_protocol.
Qed.

Lemma chat_raises_flag gw props o w :
  accepts chat_feature props o = true ->
  match optimistic_write props o w with
  | Threw e => invoke chat_feature gw props o w = (Threw e, w)
  | Returned _ =>
      marks_in_progress chat_feature w (snd (invoke chat_feature gw props o w))
  end.
Proof.
  unfold accepts, optimistic_write.
  destruct (material props) as [m|] eqn:Hm; [|discriminate].
  intros Hok. run. rewrite Hm, Hok.
  destruct (updateStudyMaterial _ _ (store w)) as [s1|e1] eqn:Hw1;
    cbn [fst snd store ui now trace]; [|reflexivity].
  resume; close_protocol.
Qed.

(** C7, as the code has it. For an invocation that passes its handler's
    guard: explanation, notes, presentation, diagram and video set their
    in-progress flag before anything else, so the gateway is called with
    the flag set, and the flag is false when the invocation completes,
    whether the gateway resolves or rejects and whether the store's
    updates return or throw. Chat writes the user's message to the store
    first and sets its flag after that write: when the write returns the
    same holds for chat; when that write throws, the exception leaves the
    handler with the world untouched, the flag never having been set. *)
Theorem in_progress_set_and_cleared f gw props textOverride w :
  accepts f props textOverride = true ->
  match f, optimistic_write props textOverride w with
  | chat_feature, Threw e =>
      invoke f gw props textOverride w = (Threw e, w)
  | _, _ =>
      marks_in_progress f w (snd (invoke f gw props textOverride w))
  end.
Proof.
  intros Hok. destruct f.
  - apply generate_raises_flag; auto.
  - apply generate_raises_flag; auto.
  - apply presentation_raises_flag; auto.
  - apply diagram_video_raise_flag; auto.
  - apply diagram_video_raise_flag; auto.
  - apply chat_raises_flag, Hok.
Qed.

End AnyStore.

(** ** On the store the specification describes *)

Section OnTheMap.

Implicit Types (w : World (S := gmap string StudyMaterial)).
Implicit Types (gw : Gateway (S := gmap string StudyMaterial)).

Ltac resume_on_map :=
  repeat
    (match goal with
     | |- context [for_each no_callback _ _] => rewrite for_each_no_callback
     | |- context [for_each presentation_onProgress _ _] =>
         rewrite for_each_presentation_onProgress
     | |- context [for_each video_onProgress _ _] =>
         rewrite for_each_video_onProgress
     | H : settles ?p = _ |- context [match settles ?p with _ => _ end] =>
         rewrite H
     | H : startOrGetChat ?g ?i ?h = _
       |- context [match startOrGetChat ?g ?i ?h with _ => _ end] =>
         rewrite H
     end; cbn [fst snd store ui now trace]).

(** Updating a stored record replaces that record and no other. *)
Lemma alter_stored (f : StudyMaterial -> StudyMaterial) i m0
    (s : gmap string StudyMaterial) :
  s !! i = Some m0 -> alter f i s = <[i := f m0]> s.
Proof.
  intros Hs. apply map_eq. intros j. rewrite lookup_alter, lookup_insert.
  destruct (decide (i = j)) as [->|]; [rewrite Hs|]; reflexivity.
Qed.

Lemma keeps_alter i (f : StudyMaterial -> StudyMaterial) :
  keeps (S := gmap string StudyMaterial) i (alter f i).
Proof.
  intros s [m0 Hs]. simpl in *. rewrite lookup_alter, decide_True by done.
  rewrite Hs. eauto.
Qed.

(** C5, as the code has it. A successful notes generation at the
    selected length makes one store write, whose object has the [notes]
    key only; the stored record afterwards is the record found at that
    moment with [notes] replaced and every other field as found. The new
    [notes] are the notes the render captured with the selected length
    set to the result: every other length holds what the page held when
    the invocation began, and so what the store held just before the
    write whenever nothing changed the stored notes in between. A
    successful explanation generation makes one write with the
    [aiExplanation] key only, and the stored record afterwards differs
    from the one found in [aiExplanation] alone. *)
Theorem generation_writes_its_field_only gw props m w :
  material props = Some m ->
  truthy (material_id m) = true ->
  store w !! material_id m = Some m ->
  (forall r m0,
      let p := generateNotes gw (extractedText m) (selectedNoteLength props) in
      let w' := snd (handleGenerateNotes gw props w) in
      let written :=
        patch_notes
          (Some (<[selectedNoteLength props := r]> (default ∅ (notes m)))) in
      settles p = Returned r ->
      meanwhile p (store w) !! material_id m = Some m0 ->
      exists m' u,
        trace w' = (trace w ++ [Called FnGenerateNotes (store w) u;
                                Wrote (material_id m) written])%list
        /\ store w' = <[material_id m := m']> (meanwhile p (store w))
        /\ m' = with_notes
                  (Some (<[selectedNoteLength props := r]> (default ∅ (notes m))))
                  m0
        /\ note_at (selectedNoteLength props) m' = Some r
        /\ (forall other, other <> selectedNoteLength props ->
                          note_at other m' = note_at other m)
        /\ (notes m0 = notes m ->
            forall other, other <> selectedNoteLength props ->
                          note_at other m' = note_at other m0))
  /\ (forall r m0,
      let p := generateExplanation gw (extractedText m) in
      let w' := snd (handleGenerateExplanation gw props w) in
      settles p = Returned r ->
      meanwhile p (store w) !! material_id m = Some m0 ->
      exists u,
        trace w' = (trace w ++ [Called FnGenerateExplanation (store w) u;
                                Wrote (material_id m)
                                  (patch_aiExplanation (Some r))])%list
        /\ store w' = <[material_id m := with_aiExplanation (Some r) m0]>
                        (meanwhile p (store w))).
Proof.
  intros Hm Hid Hshown. split.
  - intros r m0 p w' written Hr Hm0. subst p w' written.
    run_on_map. rewrite Hm, Hid. simpl in Hr, Hm0 |- *. resume_on_map.
    rewrite <- app_assoc.
    assert (Hothers : forall other, other <> selectedNoteLength props ->
      note_at other
        (with_notes
           (Some (<[selectedNoteLength props := r]> (default ∅ (notes m)))) m0)
      = note_at other m).
    { intros other Hother. unfold note_at. simpl.
      rewrite lookup_insert_ne by congruence.
      destruct (notes m); [reflexivity|apply lookup_empty]. }
    eexists _, _. split; [reflexivity|]. split; [|split; [reflexivity|]].
    + simpl. erewrite alter_stored by exact Hm0. reflexivity.
    + split; [unfold note_at; simpl; apply lookup_insert_eq|].
      split; [exact Hothers|].
      intros Hsame other Hother. rewrite (Hothers other Hother).
      unfold note_at. rewrite Hsame. reflexivity.
  - intros r m0 p w' Hr Hm0. subst p w'.
    run_on_map. rewrite Hm, Hid. simpl in Hr, Hm0 |- *. resume_on_map.
    rewrite <- app_assoc.
    eexists. split; [reflexivity|].
    simpl. erewrite alter_stored by eassumption. reflexivity.
Qed.

(** C6. After a diagram generation that reached the gateway, whether the
    gateway returned a text, returned nothing or an empty text, or threw,
    the material's [blockDiagramMermaid] is a non-empty string: the text
    the gateway returned, or the sentinel. It is never the empty
    string. *)
Theorem diagram_is_source_or_sentinel gw props m explanation w :
  material props = Some m ->
  aiExplanation m = Some explanation ->
  truthy explanation = true ->
  let p := generateBlockDiagram gw explanation in
  let w' := snd (handleGenerateBlockDiagram gw props w) in
  is_Some (meanwhile p (store w) !! material_id m) ->
  exists d,
    blockDiagramMermaid <$> store w' !! material_id m = Some (Some d)
    /\ d <> EmptyString
    /\ (d = "error" \/ settles p = Returned (Some d)).
Proof.
  intros Hm He Hok p w' [m0 Hm0]. subst p w'.
  run_on_map. rewrite Hm, He, Hok. resume_on_map.
  destruct (settles (generateBlockDiagram gw explanation)) as [[code|]|e];
    cbn [fst snd store ui now trace];
    rewrite lookup_alter, decide_True, Hm0 by reflexivity; simpl.
  - destruct code as [|c code]; simpl.
    + exists "error". repeat split; [discriminate|left; reflexivity].
    + exists (String c code). repeat split; [discriminate|right; reflexivity].
  - exists "error". repeat split; [discriminate|left; reflexivity].
  - exists "error". repeat split; [discriminate|left; reflexivity].
Qed.


(** C3. When the explanation is present, phase 1 returns slide content
    and phase 2 throws, the material's [presentationContent] ends absent
    and [presentationError] holds a non-empty message: the thrown
    error's, or the default when that one is missing or empty. *)
Theorem presentation_cleared_when_images_throw
    gw props m explanation content e w :
  material props = Some m ->
  truthy (material_id m) = true ->
  aiExplanation m = Some explanation ->
  truthy explanation = true ->
  let p1 := generatePresentationContent gw explanation in
  let p2 := generatePresentationImages gw content in
  let w' := snd (handleGenerateFullPresentation gw props w) in
  settles p1 = Returned (Some content) ->
  settles p2 = Threw e ->
  is_Some (store w !! material_id m) ->
  keeps (material_id m) (meanwhile p1) ->
  keeps (material_id m) (meanwhile p2) ->
  presentationContent <$> store w' !! material_id m = Some None
  /\ exists msg,
      presentationError (ui w') = Some msg
      /\ msg <> EmptyString
      /\ msg = or_else (message e) "An unknown error occurred.".
Proof.
  intros Hm Hid He Hok p1 p2 w' H1 H2 Hs Hk1 Hk2. subst p1 p2 w'.
  run_on_map. rewrite Hm, He, Hid, Hok. cbn [andb]. resume_on_map.
  split.
  - rewrite lookup_alter, decide_True by reflexivity.
    destruct (Hk2 _ (keeps_alter (material_id m)
                       (merge_patch (patch_presentationContent (Some content)))
                       _ (Hk1 _ Hs))) as [m2 Hm2].
    simpl in Hm2. rewrite Hm2. reflexivity.
  - eexists. split; [reflexivity|]. split; [|reflexivity].
    apply or_else_nonempty. discriminate.
Qed.

(** C2, as the code has it. When the image phase completes and returns
    content, [presentationContent] is retained exactly as returned, with
    no image URL on the slides whose image failed, be that some slides
    or every slide; the warning is surfaced exactly when at least one
    slide lacks an image URL, and no error is shown otherwise. *)
Theorem presentation_kept_when_images_return
    gw props m explanation content contentWithImages w :
  material props = Some m ->
  truthy (material_id m) = true ->
  aiExplanation m = Some explanation ->
  truthy explanation = true ->
  let p1 := generatePresentationContent gw explanation in
  let p2 := generatePresentationImages gw content in
  let w' := snd (handleGenerateFullPresentation gw props w) in
  settles p1 = Returned (Some content) ->
  settles p2 = Returned (Some contentWithImages) ->
  is_Some (store w !! material_id m) ->
  keeps (material_id m) (meanwhile p1) ->
  keeps (material_id m) (meanwhile p2) ->
  presentationContent <$> store w' !! material_id m
  = Some (Some contentWithImages)
  /\ presentationError (ui w')
     = (if some_slide_lacks_image contentWithImages
        then Some "Some slide visuals could not be generated."
        else None).
Proof.
  intros Hm Hid He Hok p1 p2 w' H1 H2 Hs Hk1 Hk2. subst p1 p2 w'.
  run_on_map. rewrite Hm, He, Hid, Hok. cbn [andb]. resume_on_map.
  destruct (Hk2 _ (keeps_alter (material_id m)
                     (merge_patch (patch_presentationContent (Some content)))
                     _ (Hk1 _ Hs))) as [m2 Hm2].
  simpl in Hm2.
  destruct (some_slide_lacks_image contentWithImages);
    cbn [fst snd store ui now trace];
    rewrite lookup_alter, decide_True, Hm2 by reflexivity;
    simpl; rewrite ?presentationError_after_progress; split; reflexivity.
Qed.

(** C8. Wherever a call of [generatePresentationImages] stands in the
    trace of a presentation generation, phase 1 had returned content, a
    store write of that content stands before the call, and the store as
    it was at the call holds that content for the material. *)
Theorem images_start_after_content_is_stored gw props m explanation w :
  material props = Some m ->
  aiExplanation m = Some explanation ->
  is_Some (store w !! material_id m) ->
  keeps (material_id m) (meanwhile (generatePresentationContent gw explanation)) ->
  let w' := snd (handleGenerateFullPresentation gw props w) in
  forall before s u after,
    trace w'
    = (trace w ++ before ++ Called FnGeneratePresentationImages s u :: after)%list ->
    exists content,
      settles (generatePresentationContent gw explanation)
      = Returned (Some content)
      /\ In (Wrote (material_id m) (patch_presentationContent (Some content)))
            before
      /\ presentationContent <$> s !! material_id m = Some (Some content).
Proof.
  intros Hm He Hs Hk w' before s u after. subst w'.
  destruct (Hk _ Hs) as [m1 Hm1]. simpl in Hm1.
  run_on_map. rewrite Hm, He.
  destruct (truthy (material_id m) && truthy explanation);
    cbn [fst snd store ui now trace].
  2:{ intros H. rewrite <- (app_nil_r (trace w)) in H at 1.
      apply app_inv_head in H. peel H before. }
  resume_on_map.
  destruct (settles (generatePresentationContent gw explanation))
    as [[content|]|e1]; cbn [fst snd store ui now trace]; resume_on_map.
  - destruct (settles (generatePresentationImages gw content))
      as [[contentWithImages|]|e2]; cbn [fst snd store ui now trace];
      [destruct (some_slide_lacks_image contentWithImages);
       cbn [fst snd store ui now trace]|..];
      rewrite <- ?app_assoc; intros H; apply app_inv_head in H;
      peel H before; injection H as <- <- _;
      (exists content; split; [reflexivity|]; split;
       [right; left; reflexivity|];
       rewrite lookup_alter, decide_True, Hm1 by reflexivity; reflexivity).
  - rewrite <- ?app_assoc. intros H. apply app_inv_head in H. peel H before.
  - rewrite <- ?app_assoc. intros H. apply app_inv_head in H. peel H before.
Qed.

(** X1. What a send leaves in the chat history, when the material is still
    stored as the gateway settles: on success the history the render
    captured, the user's message and the reply; on failure the history
    read from the store at that moment and the apology. *)
Lemma chat_history_after_send gw props m textOverride w chat :
  material props = Some m ->
  accepts chat_feature props textOverride = true ->
  let textToSend := trim (default (rendered_chatInput props) textOverride) in
  let userMessage := userMessage_at textToSend (now w) in
  let p := sendMessageToChat gw chat textToSend (useGoogleSearch props) in
  let w' := snd (handleSendMessage gw props textOverride w) in
  let sent :=
    alter (merge_patch (patch_chatHistory
                          (Some (default [] (chatHistory m) ++ [userMessage]))))
      (material_id m) (store w) in
  startOrGetChat gw (systemInstruction m) (map to_turn <$> chatHistory m)
  = Returned chat ->
  forall m1, meanwhile p sent !! material_id m = Some m1 ->
  match settles p with
  | Returned reply =>
      chatHistory <$> store w' !! material_id m
      = Some (Some (default [] (chatHistory m)
                    ++ [userMessage; aiMessage_at reply (now w + elapsed p)]))
  | Threw _ =>
      chatHistory <$> store w' !! material_id m
      = Some (Some (default [] (chatHistory m1)
                    ++ [errorMessage_at (now w + elapsed p)]))
  end.
Proof.
  intros Hm Hok textToSend userMessage p w' sent Hchat m1 Hm1.
  subst textToSend userMessage p w' sent.
  unfold accepts in Hok. rewrite Hm in Hok.
  run_on_map. rewrite Hm, Hok. cbn [text userMessage_at] in Hm1 |- *.
  resume_on_map. simpl in Hm1.
  destruct (settles _) as [reply|e]; cbn [fst snd store ui now trace].
  - rewrite lookup_alter, decide_True, Hm1 by reflexivity. reflexivity.
  - rewrite lookup_alter, decide_True, Hm1 by reflexivity. reflexivity.
Qed.

Lemma keeps_quiet {A} (o : Outcome A) i :
  keeps (S := gmap string StudyMaterial) i (meanwhile (Sample.quiet o)).
Proof. intros s Hs. exact Hs. Qed.

End OnTheMap.

(** ** The properties on the sample inputs *)

Import Sample.

(** C1. Sending "Why?" while the history is [A; B]. With nobody else
    writing, the history ends as [A; B; M; reply] on success and as
    [A; B; M; apology] on failure. When another workflow appends [X] to
    the stored history while the send awaits the gateway, the failure
    path builds on the history it reads from the store and keeps [X],
    whereas the success path builds on the history the render captured:
    it writes [A; B; M; reply] over [A; B; M; X], and [X] is lost. *)
Example reply_overwrites_what_was_appended_meanwhile :
  let M := userMessage_at (js "Why?") 1000 in
  let history_after gw :=
    chatHistory
      <$> store (snd (handleSendMessage gw (page biology) None start)) !! "m1" in
  history_after (tutor (quiet (Returned reply)))
  = Some (Some [A; B; M; aiMessage_at reply 1005])
  /\ history_after (tutor (quiet (Threw offline)))
     = Some (Some [A; B; M; errorMessage_at 1005])
  /\ chatHistory
       <$> meanwhile (overtaken (Returned reply))
             (alter (merge_patch (patch_chatHistory (Some [A; B; M]))) "m1" shelf)
           !! "m1"
     = Some (Some [A; B; M; X])
  /\ history_after (tutor (overtaken (Threw offline)))
     = Some (Some [A; B; M; X; errorMessage_at 1005])
  /\ history_after (tutor (overtaken (Returned reply)))
     = Some (Some [A; B; M; aiMessage_at reply 1005]).
Proof. repeat split; vm_compute; reflexivity. Qed.

(** C2, against the claim as stated: the image phase completes with no
    image for any slide, and [presentationContent] ends as that
    image-less content, not absent. *)
Lemma imageless_presentation_is_kept :
  Forall (fun s => imageUrl s = None) (slides deck)
  /\ settles (generatePresentationImages (illustrator (Returned (Some deck))) deck)
     = Returned (Some deck)
  /\ presentationContent
       <$> store (snd (handleGenerateFullPresentation
                         (illustrator (Returned (Some deck)))
                         (page biology) start))
           !! "m1"
     = Some (Some deck)
  /\ presentationContent
       <$> store (snd (handleGenerateFullPresentation
                         (illustrator (Returned (Some deck)))
                         (page biology) start))
           !! "m1"
     <> Some None.
Proof.
  assert (Hkept :
    presentationContent
      <$> store (snd (handleGenerateFullPresentation
                        (illustrator (Returned (Some deck)))
                        (page biology) start))
          !! "m1"
    = Some (Some deck)) by (vm_compute; reflexivity).
  split; [repeat constructor|]. split; [reflexivity|].
  split; [exact Hkept|]. rewrite Hkept. discriminate.
Qed.

(** C2 at a sample: phase 2 returns [deck_half]; it is kept and the
    warning is shown. *)
Lemma presentation_kept_when_images_return_witness :
  presentationContent
    <$> store (snd (handleGenerateFullPresentation
                      (illustrator (Returned (Some deck_half)))
                      (page biology) start))
        !! "m1"
  = Some (Some deck_half)
  /\ presentationError
       (ui (snd (handleGenerateFullPresentation
                   (illustrator (Returned (Some deck_half)))
                   (page biology) start)))
     = Some "Some slide visuals could not be generated.".
Proof.
  apply (presentation_kept_when_images_return
           (illustrator (Returned (Some deck_half)))
           (page biology) biology "A membrane lets some things through."
           deck deck_half start);
    try reflexivity;
    [exists biology; reflexivity | apply keeps_quiet | apply keeps_quiet].
Defined.

(** C3 at a sample: phase 2 is offline. *)
Lemma presentation_cleared_when_images_throw_witness :
  presentationContent
    <$> store (snd (handleGenerateFullPresentation
                      (illustrator (Threw offline)) (page biology) start))
        !! "m1"
  = Some None
  /\ exists msg,
      presentationError
        (ui (snd (handleGenerateFullPresentation
                    (illustrator (Threw offline)) (page biology) start)))
      = Some msg
      /\ msg <> EmptyString
      /\ msg = or_else (message offline) "An unknown error occurred.".
Proof.
  apply (presentation_cleared_when_images_throw (illustrator (Threw offline))
           (page biology) biology "A membrane lets some things through."
           deck offline start);
    try reflexivity;
    [exists biology; reflexivity | apply keeps_quiet | apply keeps_quiet].
Defined.

(** C4 at a sample: the upload has no explanation yet. *)
Lemma generation_requires_explanation_witness :
  handleGenerateFullPresentation down (page unexplained) start
  = (Returned tt,
     {| store := shelf;
        ui := with_presentationError (Some presentation_guard_message) idle;
        now := 1000; trace := [] |})
  /\ handleGenerateBlockDiagram down (page unexplained) start
     = (Returned tt,
        {| store := shelf;
           ui := with_diagramError (Some explanation_first) idle;
           now := 1000; trace := [] |})
  /\ handleGenerateVideo down (page unexplained) start
     = (Returned tt,
        {| store := shelf;
           ui := with_error
                   (fun prev => <["video" := Some explanation_first]> prev) idle;
           now := 1000; trace := [] |}).
Proof.
  apply (generation_requires_explanation down (page unexplained) unexplained
           start);
    reflexivity.
Defined.

(** C5, against the claim as stated: while a generation of DETAILED notes
    awaits the gateway, another notes generation rewrites the stored
    SHORT notes. The generation succeeds, and its write sets DETAILED and
    also puts the SHORT text the render captured back over the one the
    store held: a length other than the selected one does not remain as
    stored. *)
Lemma notes_write_puts_back_the_captured_short_note :
  fst (handleGenerateNotes slow_writer (page biology) start) = Returned tt
  /\ settles (generateNotes slow_writer (extractedText biology) DETAILED)
     = Returned "Membranes, in depth."
  /\ note_at SHORT
       <$> meanwhile (generateNotes slow_writer (extractedText biology) DETAILED)
             shelf !! "m1"
     = Some (Some "Membranes choose what passes.")
  /\ note_at DETAILED
       <$> store (snd (handleGenerateNotes slow_writer (page biology) start))
           !! "m1"
     = Some (Some "Membranes, in depth.")
  /\ note_at SHORT
       <$> store (snd (handleGenerateNotes slow_writer (page biology) start))
           !! "m1"
     = Some (Some "Membranes are selective.")
  /\ note_at SHORT
       <$> store (snd (handleGenerateNotes slow_writer (page biology) start))
           !! "m1"
     <> note_at SHORT
          <$> meanwhile
                (generateNotes slow_writer (extractedText biology) DETAILED)
                shelf !! "m1".
Proof.
  assert (Hafter :
    note_at SHORT
      <$> store (snd (handleGenerateNotes slow_writer (page biology) start))
          !! "m1"
    = Some (Some "Membranes are selective.")) by (vm_compute; reflexivity).
  assert (Hbefore :
    note_at SHORT
      <$> meanwhile (generateNotes slow_writer (extractedText biology) DETAILED)
            shelf !! "m1"
    = Some (Some "Membranes choose what passes.")) by (vm_compute; reflexivity).
  split; [vm_compute; reflexivity|]. split; [reflexivity|].
  split; [exact Hbefore|]. split; [vm_compute; reflexivity|].
  split; [exact Hafter|]. rewrite Hafter, Hbefore. discriminate.
Qed.

(** C5 at a sample: DETAILED notes are generated when SHORT notes
    exist, and nothing else writes meanwhile. *)
Lemma generation_writes_its_field_only_witness :
  exists m',
    store (snd (handleGenerateNotes writer (page biology) start)) !! "m1"
    = Some m'
    /\ note_at DETAILED m' = Some "Membranes, in depth."
    /\ note_at SHORT m' = Some "Membranes are selective."
    /\ note_at SHORT m' = note_at SHORT biology
    /\ m' = with_notes (notes m') biology.
Proof.
  destruct (generation_writes_its_field_only writer (page biology) biology start
              eq_refl eq_refl eq_refl) as [Hnotes _].
  destruct (Hnotes "Membranes, in depth." biology eq_refl eq_refl)
    as (m' & u & _ & Hstore & Hm' & Hnew & Hold & Hkept).
  exists m'. split; [rewrite Hstore; apply lookup_insert_eq|].
  split; [exact Hnew|]. split; [apply (Hold SHORT); discriminate|].
  split; [apply (Hkept eq_refl SHORT); discriminate|].
  rewrite Hm'. reflexivity.
Defined.

(** C6 at a sample: the gateway returns the empty string. *)
Lemma diagram_is_source_or_sentinel_witness :
  exists d,
    blockDiagramMermaid
      <$> store (snd (handleGenerateBlockDiagram writer (page biology) start))
          !! "m1"
    = Some (Some d)
    /\ d <> EmptyString
    /\ (d = "error"
        \/ settles (generateBlockDiagram
                      (writer (S := gmap string StudyMaterial))
                      "A membrane lets some things through.")
           = Returned (Some d)).
Proof.
  apply (diagram_is_source_or_sentinel writer (page biology) biology
           "A membrane lets some things through." start);
    [reflexivity | reflexivity | reflexivity | exists biology; reflexivity].
Defined.

(** C7, against the claim as stated: the store is full, so the
    optimistic write of a chat send throws; the invocation passed the
    guard, and ends without the awaiting-response flag ever set. *)
Lemma chat_flag_not_raised_when_first_write_throws :
  accepts chat_feature (page biology) None = true
  /\ invoke chat_feature down (page biology) None start_full
     = (Threw QuotaExceededError, start_full)
  /\ ~ marks_in_progress chat_feature start_full
         (snd (invoke chat_feature down (page biology) None start_full)).
Proof.
  assert (Hrun : invoke chat_feature down (page biology) None start_full
                 = (Threw QuotaExceededError, start_full)) by reflexivity.
  split; [reflexivity|]. split; [exact Hrun|].
  rewrite Hrun. intros (evs & Htrace & Hcall & _).
  simpl in Htrace. subst evs. inversion Hcall.
Qed.

(** C7 at samples, on the full store: a notes generation whose store
    update throws after the gateway resolved, a video generation whose
    gateway call throws, and a chat send. *)
Lemma in_progress_set_and_cleared_witness :
  marks_in_progress notes_feature start_full
    (snd (invoke notes_feature writer (page biology) None start_full))
  /\ marks_in_progress video_feature start_full
       (snd (invoke video_feature down (page biology) None start_full))
  /\ invoke chat_feature down (page biology) None start_full
     = (Threw QuotaExceededError, start_full).
Proof.
  split; [|split].
  - apply (in_progress_set_and_cleared notes_feature writer (page biology) None
             start_full).
    reflexivity.
  - apply (in_progress_set_and_cleared video_feature down (page biology) None
             start_full).
    reflexivity.
  - exact (in_progress_set_and_cleared chat_feature down (page biology) None
             start_full eq_refl).
Defined.

(** C8 at a sample: the trace of a presentation generation that
    succeeds. *)
Lemma images_start_after_content_is_stored_witness :
  trace (snd (handleGenerateFullPresentation
                (illustrator (Returned (Some deck_half))) (page biology) start))
  = [Called FnGeneratePresentationContent shelf ui_crafting;
     Wrote "m1" (patch_presentationContent (Some deck));
     Called FnGeneratePresentationImages shelf_with_deck ui_crafting;
     Wrote "m1" (patch_presentationContent (Some deck_half))]
  /\ exists content,
      settles (generatePresentationContent
                 (illustrator (Returned (Some deck_half)))
                 "A membrane lets some things through.")
      = Returned (Some content)
      /\ In (Wrote "m1" (patch_presentationContent (Some content)))
            [Called FnGeneratePresentationContent shelf ui_crafting;
             Wrote "m1" (patch_presentationContent (Some deck))]
      /\ presentationContent <$> shelf_with_deck !! "m1" = Some (Some content).
Proof.
  split; [reflexivity|].
  apply (images_start_after_content_is_stored
           (illustrator (Returned (Some deck_half))) (page biology) biology
           "A membrane lets some things through." start
           eq_refl eq_refl (ex_intro _ biology eq_refl) (keeps_quiet _ _)
           [Called FnGeneratePresentationContent shelf ui_crafting;
            Wrote "m1" (patch_presentationContent (Some deck))]
           shelf_with_deck ui_crafting
           [Wrote "m1" (patch_presentationContent (Some deck_half))]).
  reflexivity.
Defined.

(** C9 at a sample: the text is white space. *)
Lemma handleSendMessage_noop_witness :
  handleSendMessage down (page biology) (Some blank) start
  = (Returned tt, start).
Proof.
  apply handleSendMessage_noop. left. apply trim_blank.
  repeat constructor.
Defined.


(** * Further properties *)

(** ** More on the handlers *)

Ltac resume_any :=
  repeat
    (match goal with
     | |- context [for_each no_callback _ _] => rewrite for_each_no_callback
     | |- context [for_each presentation_onProgress _ _] =>
         rewrite for_each_presentation_onProgress
     | |- context [for_each video_onProgress _ _] =>
         rewrite for_each_video_onProgress
     | |- context [match settles ?p with _ => _ end] =>
         destruct (settles p) as [?|?] eqn:?
     | |- context [match updateStudyMaterial ?i ?u ?s with _ => _ end] =>
         destruct (updateStudyMaterial i u s) as [?|?] eqn:?
     | |- context [match startOrGetChat ?g ?i ?h with _ => _ end] =>
         destruct (startOrGetChat g i h) as [?|?] eqn:?
     | |- context [if some_slide_lacks_image ?c then _ else _] =>
         destruct (some_slide_lacks_image c) eqn:?
     | |- context [match ?o with Some _ => _ | None => _ end] =>
         is_var o; destruct o
     end; cbn [fst snd store ui now trace]).

Section AnyStoreMore.

Context {S : Type} `{!ContentStore S}.

Implicit Types (w : World (S := S)) (gw : Gateway (S := S)).

(** X2. Whatever the store and the gateway do, every store write of a
    handler goes to the material the render captured and carries the one
    field of the handler's feature: [aiExplanation], [notes],
    [presentationContent], [blockDiagramMermaid], [videoScenes] or
    [chatHistory]. A handler never writes another material or another
    field, and without a captured material it writes nothing. *)
Theorem every_write_is_to_the_own_field f gw props textOverride w :
  exists evs,
    trace (snd (invoke f gw props textOverride w)) = trace w ++ evs
    /\ Forall (write_within f props) evs.
Proof.
  destruct (material props) as [m|] eqn:Hm.
  2:{ exists []. split; [|constructor].
      destruct f; run; rewrite Hm; cbn [snd trace]; symmetry; apply app_nil_r. }
  destruct f; run; rewrite Hm;
    repeat (match goal with
            | |- context [match aiExplanation m with _ => _ end] =>
                destruct (aiExplanation m) as [?|]
            | |- context [if ?b then _ else _] => destruct b
            end; cbn [fst snd store ui now trace]);
    resume_any;
    rewrite <- ?app_assoc;
    first [ exists []; split; [symmetry; apply app_nil_r | constructor]
          | eexists; split; [reflexivity|];
            repeat constructor; simpl; eauto ].
Qed.

End AnyStoreMore.

Section AnyStoreMore2.

Context {S : Type} `{!ContentStore S}.

Implicit Types (w : World (S := S)) (gw : Gateway (S := S)).

(** X3. [handleGenerate] never throws. When the generator resolves and
    the store accepts the update, the store is the updated one and the
    feature's error is null; when the generator rejects or the update
    throws, the store is what it was as the generator settled and the
    feature's error is "Failed to generate <type>. Please try again.",
    whatever was thrown. *)
Theorem handleGenerate_reports_every_failure props type fn (p : Promise string) m w :
  material props = Some m ->
  truthy (material_id m) = true ->
  let ran := handleGenerate props type (await fn p) w in
  let resumed := meanwhile p (store w) in
  fst ran = Returned tt
  /\ match settles p with
     | Returned result =>
         match updateStudyMaterial (material_id m)
                 (generated_patch type m (selectedNoteLength props) result)
                 resumed with
         | Returned written =>
             store (snd ran) = written
             /\ error (ui (snd ran)) !! type_key type = Some None
         | Threw _ =>
             store (snd ran) = resumed
             /\ error (ui (snd ran)) !! type_key type
                = Some (Some (generation_failed type))
         end
     | Threw _ =>
         store (snd ran) = resumed
         /\ error (ui (snd ran)) !! type_key type
            = Some (Some (generation_failed type))
     end.
Proof.
  intros Hm Hid ran resumed. subst ran resumed.
  run. rewrite Hm, Hid. rewrite for_each_no_callback.
  cbn [fst snd store ui now trace].
  destruct (settles p) as [result|e]; cbn [fst snd store ui now trace].
  - destruct (updateStudyMaterial _ _ _) as [written|e];
      cbn [fst snd store ui now trace]; simpl;
      rewrite ?lookup_insert_eq; repeat split; reflexivity.
  - simpl. rewrite ?lookup_insert_eq. repeat split; reflexivity.
Qed.

(** X4. Once the first write of a send is accepted, the React state the
    send leaves does not depend on the gateway or on the later writes:
    the input is empty, the chat error is null and the awaiting flag is
    false. A failed send is reported in the chat history only, never in
    [error.chat]. *)
Theorem send_leaves_the_same_react_state gw props textOverride w written :
  accepts chat_feature props textOverride = true ->
  optimistic_write props textOverride w = Returned written ->
  ui (snd (handleSendMessage gw props textOverride w))
  = with_isAwaitingChatResponse false
      (with_error (fun prev => <["chat" := None]> prev)
         (with_isAwaitingChatResponse true
            (with_chatInput [] (ui w)))).
Proof.
  unfold accepts, optimistic_write.
  destruct (material props) as [m|] eqn:Hm; [|discriminate].
  intros Hok Hwritten. run. rewrite Hm, Hok.
  cbn [fst snd store ui now trace]. rewrite Hwritten.
  cbn [fst snd store ui now trace].
  resume_any; reflexivity.
Qed.

(** X5. A send that passes the guard begins with the write of the
    user's message. When the store accepts that write, the send calls the
    gateway, and at every gateway call the store is the one that write
    returned, the input is empty, the awaiting flag is set and the chat
    error is null. When the store throws on that write, the exception
    leaves the handler and nothing else happened: no gateway call, no
    change of the React state. *)
Theorem gateway_sees_the_sent_message gw props textOverride w :
  accepts chat_feature props textOverride = true ->
  let ran := handleSendMessage gw props textOverride w in
  (forall written,
      optimistic_write props textOverride w = Returned written ->
      exists evs,
        trace (snd ran) = trace w ++ evs
        /\ Exists is_call evs
        /\ Forall (sees_the_sent_message written) evs)
  /\ (forall e,
      optimistic_write props textOverride w = Threw e -> ran = (Threw e, w)).
Proof.
  unfold accepts, optimistic_write.
  destruct (material props) as [m|] eqn:Hm; [|discriminate].
  intros Hok. run. rewrite Hm, Hok.
  cbn [fst snd store ui now trace]. split.
  - intros written Hwritten. rewrite Hwritten.
    cbn [fst snd store ui now trace].
    resume_any; rewrite <- ?app_assoc; eexists; (split; [reflexivity|]);
      (split; [apply Exists_cons_tl, Exists_cons_hd; exact I|]);
      repeat constructor; simpl; apply lookup_insert_eq.
  - intros e He. rewrite He. reflexivity.
Qed.

(** X6. When the first write of a send is accepted and [startOrGetChat]
    throws, [sendMessageToChat] is not called: the catch reads the
    material back from the store and writes its history followed by the
    apology. When the store accepts that write the send returns; when the
    store throws on it, that exception leaves the handler, the store
    being as the first write left it. The awaiting flag is false
    afterwards in both cases. *)
Theorem send_without_a_session_apologises gw props m textOverride w e written :
  material props = Some m ->
  accepts chat_feature props textOverride = true ->
  optimistic_write props textOverride w = Returned written ->
  startOrGetChat gw (systemInstruction m) (map to_turn <$> chatHistory m)
  = Threw e ->
  let userMessage :=
    userMessage_at (trim (default (rendered_chatInput props) textOverride))
      (now w) in
  let sent :=
    patch_chatHistory (Some (default [] (chatHistory m) ++ [userMessage])) in
  let apologised :=
    patch_chatHistory
      (Some (default []
               (getStudyMaterialById written (material_id m) ≫= chatHistory)
             ++ [errorMessage_at (now w)])) in
  let ran := handleSendMessage gw props textOverride w in
  isAwaitingChatResponse (ui (snd ran)) = false
  /\ (forall final,
        updateStudyMaterial (material_id m) apologised written = Returned final ->
        fst ran = Returned tt
        /\ store (snd ran) = final
        /\ exists u,
            trace (snd ran)
            = trace w ++ [Wrote (material_id m) sent;
                          Called FnStartOrGetChat written u;
                          Wrote (material_id m) apologised])
  /\ (forall e',
        updateStudyMaterial (material_id m) apologised written = Threw e' ->
        fst ran = Threw e'
        /\ store (snd ran) = written
        /\ exists u,
            trace (snd ran)
            = trace w ++ [Wrote (material_id m) sent;
                          Called FnStartOrGetChat written u]).
Proof.
  intros Hm Hok Hwritten He userMessage sent apologised ran.
  subst userMessage sent apologised ran.
  unfold accepts in Hok. unfold optimistic_write in Hwritten.
  rewrite Hm in Hok, Hwritten.
  run. rewrite Hm, Hok. cbn [fst snd store ui now trace].
  rewrite Hwritten. cbn [fst snd store ui now trace].
  rewrite He. cbn [fst snd store ui now trace].
  split; [|split].
  - destruct (updateStudyMaterial _ _ written); reflexivity.
  - intros final Hfinal. rewrite Hfinal. cbn [fst snd store ui now trace].
    rewrite <- !app_assoc. repeat split. eexists. reflexivity.
  - intros e' He'. rewrite He'. cbn [fst snd store ui now trace].
    rewrite <- !app_assoc. repeat split. eexists. reflexivity.
Qed.

End AnyStoreMore2.

Section OnTheMapMore.

Implicit Types (w : World (S := gmap string StudyMaterial)).
Implicit Types (gw : Gateway (S := gmap string StudyMaterial)).

Ltac resume_on_map :=
  repeat
    (match goal with
     | |- context [for_each no_callback _ _] => rewrite for_each_no_callback
     | |- context [for_each presentation_onProgress _ _] =>
         rewrite for_each_presentation_onProgress
     | |- context [for_each video_onProgress _ _] =>
         rewrite for_each_video_onProgress
     | H : settles ?p = _ |- context [match settles ?p with _ => _ end] =>
         rewrite H
     | H : startOrGetChat ?g ?i ?h = _
       |- context [match startOrGetChat ?g ?i ?h with _ => _ end] =>
         rewrite H
     end; cbn [fst snd store ui now trace]).

(** X7. On the store the specification describes, whose updates do not
    throw: a presentation generation that passes the guard returns, and
    the stored [presentationContent] is what both phases delivered
    together, the content with images when both resolved with content,
    absent in every other case. In those other cases [presentationError]
    is a non-empty message. The progress text is empty afterwards either
    way. *)
Theorem presentation_is_all_or_nothing gw props m explanation w :
  material props = Some m ->
  truthy (material_id m) = true ->
  aiExplanation m = Some explanation ->
  truthy explanation = true ->
  is_Some (store w !! material_id m) ->
  keeps (material_id m) (meanwhile (generatePresentationContent gw explanation)) ->
  (forall content,
      keeps (material_id m) (meanwhile (generatePresentationImages gw content))) ->
  let ran := handleGenerateFullPresentation gw props w in
  fst ran = Returned tt
  /\ presentationContent <$> store (snd ran) !! material_id m
     = Some (presentation_delivered gw explanation)
  /\ match presentation_failure gw explanation with
     | Some msg =>
         presentation_delivered gw explanation = None
         /\ presentationError (ui (snd ran)) = Some msg
         /\ msg <> EmptyString
     | None => is_Some (presentation_delivered gw explanation)
     end
  /\ presentationGenProgress (ui (snd ran)) = EmptyString.
Proof.
  intros Hm Hid He Hok Hs Hk1 Hk2 ran. subst ran.
  unfold presentation_delivered, presentation_failure.
  run_on_map. rewrite Hm, He, Hid, Hok. cbn [andb]. resume_on_map.
  destruct (Hk1 _ Hs) as [m1 Hm1]. simpl in Hm1.
  destruct (settles (generatePresentationContent gw explanation))
    as [[content|]|e1]; cbn [fst snd store ui now trace]; resume_on_map.
  - destruct (Hk2 content _
                (keeps_alter (material_id m)
                   (merge_patch (patch_presentationContent (Some content)))
                   _ (Hk1 _ Hs))) as [m2 Hm2].
    simpl in Hm2.
    destruct (settles (generatePresentationImages gw content))
      as [[contentWithImages|]|e2]; cbn [fst snd store ui now trace];
      [destruct (some_slide_lacks_image contentWithImages);
       cbn [fst snd store ui now trace]|..];
      rewrite lookup_alter, decide_True, Hm2 by reflexivity;
      repeat split; eauto; try discriminate;
      apply or_else_nonempty; discriminate.
  - rewrite lookup_alter, decide_True, Hm1 by reflexivity.
    repeat split; discriminate.
  - rewrite lookup_alter, decide_True, Hm1 by reflexivity.
    repeat split. apply or_else_nonempty. discriminate.
Qed.

(** X8. After a diagram generation that passes the guard, the diagram
    card built from the stored material and the React state renders
    exactly one of its three conditionals: the diagram when the gateway
    resolved with a non-empty source other than "error", the warning when
    it resolved with nothing, the empty string or "error", and the error
    banner when it rejected. *)
Theorem exactly_one_diagram_notice gw props m explanation w :
  material props = Some m ->
  aiExplanation m = Some explanation ->
  truthy explanation = true ->
  let p := generateBlockDiagram gw explanation in
  let w' := snd (handleGenerateBlockDiagram gw props w) in
  is_Some (meanwhile p (store w) !! material_id m) ->
  exists m',
    store w' !! material_id m = Some m'
    /\ (shows_diagram m', shows_diagram_warning m' (ui w'),
        shows_diagram_error (ui w'))
       = match settles p with
         | Returned (Some code) =>
             if truthy code && negb (String.eqb code "error")
             then (true, false, false) else (false, true, false)
         | Returned None => (false, true, false)
         | Threw _ => (false, false, true)
         end.
Proof.
  intros Hm He Hok p w' [m0 Hm0]. subst p w'.
  run_on_map. rewrite Hm, He, Hok. resume_on_map.
  destruct (settles (generateBlockDiagram gw explanation)) as [[code|]|e];
    cbn [fst snd store ui now trace];
    rewrite lookup_alter, decide_True, Hm0 by reflexivity;
    eexists; (split; [reflexivity|]);
    unfold shows_diagram, shows_diagram_warning, shows_diagram_error;
    cbn -[String.eqb].
  - destruct code as [|c code]; [reflexivity|]. cbn -[String.eqb].
    destruct (String.eqb (String c code) "error"); reflexivity.
  - reflexivity.
  - destruct (or_else (message e) "Failed to generate diagram.") as [|c s]
      eqn:Hmsg; [|reflexivity].
    exfalso. revert Hmsg. apply or_else_nonempty. discriminate.
Qed.

End OnTheMapMore.

(** ** The viewers *)

Lemma item_is_Some {A} (l : list A) (i : Z) :
  is_Some (item l i) <-> (0 <= i < Z.of_nat (length l))%Z.
Proof.
  unfold item. destruct (Z.ltb_spec i 0) as [Hneg|Hpos].
  - split; [intros [x Hx]; discriminate | lia].
  - rewrite lookup_lt_is_Some. lia.
Qed.

(** X9. On a presentation with at least one slide, whatever sequence of
    previous and next clicks the viewer receives, [currentSlide] is
    defined: the viewer never falls back to "No slides to display.". *)
Theorem viewer_always_shows_a_slide presentation clicks :
  slides presentation <> [] ->
  is_Some (PresentationViewer.currentSlide presentation
             (foldl (PresentationViewer.click presentation) 0%Z clicks)).
Proof.
  intros Hslides. unfold PresentationViewer.currentSlide.
  apply item_is_Some.
  assert (Hsize : (0 < Z.of_nat (length (slides presentation)))%Z)
    by (destruct (slides presentation); [congruence | simpl; lia]).
  cut (forall i,
          (0 <= i < Z.of_nat (length (slides presentation)))%Z ->
          (0 <= foldl (PresentationViewer.click presentation) i clicks
           < Z.of_nat (length (slides presentation)))%Z).
  { intros Hall. apply Hall. lia. }
  induction clicks as [|c clicks IH]; intros i Hi; [exact Hi|].
  simpl. apply IH.
  destruct c; unfold PresentationViewer.click, PresentationViewer.previous,
    PresentationViewer.next; lia.
Qed.

(** X10. While the viewer shows a slide, a button that is not disabled
    moves by exactly one slide and the other button undoes it; a disabled
    button's handler would leave the index where it is. *)
Theorem enabled_buttons_move_by_one_slide presentation i :
  is_Some (PresentationViewer.currentSlide presentation i) ->
  (PresentationViewer.previous_disabled i = false ->
   PresentationViewer.previous i = (i - 1)%Z
   /\ PresentationViewer.next presentation (PresentationViewer.previous i) = i)
  /\ (PresentationViewer.next_disabled presentation i = false ->
      PresentationViewer.next presentation i = (i + 1)%Z
      /\ PresentationViewer.previous (PresentationViewer.next presentation i) = i)
  /\ (PresentationViewer.previous_disabled i = true ->
      PresentationViewer.previous i = i)
  /\ (PresentationViewer.next_disabled presentation i = true ->
      PresentationViewer.next presentation i = i).
Proof.
  unfold PresentationViewer.currentSlide. rewrite item_is_Some.
  unfold PresentationViewer.previous_disabled, PresentationViewer.next_disabled,
    PresentationViewer.previous, PresentationViewer.next.
  intros Hi. repeat split; intros;
    repeat match goal with
           | H : (_ =? _)%Z = _ |- _ =>
               first [apply Z.eqb_neq in H | apply Z.eqb_eq in H]
           end; lia.
Qed.

Import VideoPlayer.

Lemma exclusive_after_cancel (calls : list SpeechCall) (cancelled : bool) :
  exclusive cancelled (calls ++ [Cancel]) = exclusive cancelled calls.
Proof.
  revert cancelled. induction calls as [|c calls IH]; intros cancelled.
  - reflexivity.
  - destruct c; simpl; rewrite ?IH; reflexivity.
Qed.

Lemma exclusive_after_speak (calls : list SpeechCall) (cancelled : bool) s h :
  exclusive cancelled (calls ++ [Cancel; Speak s h]) = exclusive cancelled calls.
Proof.
  revert cancelled. induction calls as [|c calls IH]; intros cancelled.
  - reflexivity.
  - destruct c; simpl; rewrite ?IH; reflexivity.
Qed.

Lemma item_In {A} (l : list A) i x : item l i = Some x -> In x l.
Proof.
  unfold item. destruct (i <? 0)%Z; [discriminate|].
  intros Hx. apply list_elem_of_In. eapply list_elem_of_lookup_2. exact Hx.
Qed.

Ltac player_goal :=
  intros; cbn [synthesis timeouts currentSceneIndex isPlaying];
  first
    [ assumption
    | rewrite exclusive_after_cancel; assumption
    | rewrite exclusive_after_speak; assumption
    | apply Forall_app; split;
      [ assumption
      | first
          [ constructor; [exact I | solve [constructor]]
          | constructor;
            [ exact I
            | constructor;
              [ eexists; split; [eapply item_In; eassumption | reflexivity]
              | solve [constructor] ] ]
          | constructor; [apply item_is_Some; lia | solve [constructor]] ] ]
    | apply item_is_Some;
      repeat match goal with
             | Hne : ?l <> [], H : ?l <> [] -> _ |- _ => specialize (H Hne)
             end;
      lia
    | lia ].

Lemma handle_keeps_player_ok scenes st ev :
  player_ok scenes st -> player_ok scenes (handle scenes st ev).
Proof.
  intros (Hex & Hsaid & Htimers & Hlow & Hidx).
  assert (Hrange : scenes <> [] ->
                   (0 <= currentSceneIndex st < Z.of_nat (length scenes))%Z)
    by (intros Hne; apply item_is_Some, Hidx, Hne).
  clear Hidx.
  destruct ev as [| | |[|]| |]; unfold handle.
  - repeat split; player_goal.
  - destruct (item scenes (currentSceneIndex st)) as [currentScene|] eqn:Hcur;
      [destruct (isPlaying st)|]; repeat split; player_goal.
  - repeat split; player_goal.
  - destruct (Z.ltb_spec (currentSceneIndex st + 1) (Z.of_nat (length scenes)));
      repeat split; player_goal.
  - repeat split; player_goal.
  - destruct (timeouts st) as [|next pending] eqn:Hpending.
    + repeat split; try rewrite Hpending; player_goal.
    + inversion Htimers as [|? ? [scene Hscene] Hrest]; subst.
      rewrite Hscene. repeat split; player_goal.
  - repeat split; player_goal.
Qed.

(** X11. Whatever sequence of clicks, utterance ends, timeouts and
    unmounts the player receives after mounting: every [speak] comes
    right after a [cancel], the deferred narration never reads [script]
    off a missing scene, every script spoken is the script of one of the
    scenes, and with at least one scene the current scene is defined. *)
Theorem player_speaks_one_scene_at_a_time scenes events :
  let st := foldl (handle scenes) mounted events in
  exclusive false (synthesis st) = true
  /\ Forall (narrates scenes) (synthesis st)
  /\ (scenes <> [] -> is_Some (item scenes (currentSceneIndex st))).
Proof.
  cut (forall st, player_ok scenes st ->
                  player_ok scenes (foldl (handle scenes) st events)).
  { intros Hall.
    destruct (Hall mounted) as (Hex & Hsaid & _ & _ & Hidx).
    - unfold player_ok, mounted.
      cbn [synthesis timeouts currentSceneIndex].
      split; [reflexivity|]. split; [constructor|]. split; [constructor|].
      split; [lia|].
      intros Hne. apply item_is_Some. destruct scenes; [congruence|].
      simpl length. lia.
    - repeat split; assumption. }
  induction events as [|ev events IH]; intros st Hst; [exact Hst|].
  simpl. apply IH. apply handle_keeps_player_ok, Hst.
Qed.

(** ** Voices *)

Lemma after_keeps_voices_ok st h : voices_ok st -> voices_ok (Voices.after st h).
Proof.
  intros [Hall Hsel]. destruct h as [voices|value]; unfold Voices.after.
  - unfold Voices.loadVoices. split; cbn [Voices.availableVoices Voices.selectedVoice].
    + apply List.Forall_forall. intros v Hv.
      apply List.filter_In in Hv. apply Hv.
    + destruct (List.filter Voices.english voices) as [|first others];
        [congruence|].
      intros _. exists first. split; [reflexivity | left; reflexivity].
  - unfold Voices.onChange.
    destruct (List.find _ (Voices.availableVoices st)) as [voice|] eqn:Hfind;
      [|split; assumption].
    split; cbn [Voices.availableVoices Voices.selectedVoice]; [exact Hall|].
    intros _. exists voice. split; [reflexivity|].
    apply List.find_some in Hfind. apply Hfind.
Qed.

(** X12. Whatever voice lists the browser reports and whatever values
    the select submits: every available voice has a language starting
    with "en" and a name containing neither "Google" nor "Microsoft",
    and as soon as a voice is available the selected voice is one of the
    available ones. *)
Theorem narration_voice_is_an_available_english_voice events :
  let st := foldl Voices.after Voices.unloaded events in
  Forall (fun v => String.prefix "en" (Voices.lang v) = true
                   /\ Voices.includes "Google" (Voices.name v) = false
                   /\ Voices.includes "Microsoft" (Voices.name v) = false)
    (Voices.availableVoices st)
  /\ (Voices.availableVoices st <> [] ->
      exists v, Voices.selectedVoice st = Some v
                /\ In v (Voices.availableVoices st)).
Proof.
  cut (forall st, voices_ok st -> voices_ok (foldl Voices.after st events)).
  { intros Hall. destruct (Hall Voices.unloaded) as [Henglish Hsel].
    - split; [constructor | intros Hne; exfalso; apply Hne; reflexivity].
    - split; [|exact Hsel].
      eapply List.Forall_impl; [|exact Henglish].
      intros v Hv. unfold Voices.english in Hv.
      apply andb_prop in Hv as [Hv Hms]. apply andb_prop in Hv as [Hen Hg].
      apply negb_true_iff in Hms, Hg. auto. }
  induction events as [|h events IH]; intros st Hst; [exact Hst|].
  simpl. apply IH, after_keeps_voices_ok, Hst.
Qed.

(** ** Export *)

Lemma sanitize_filename_char a : filename_char (sanitize a) = true.
Proof. destruct a as [[] [] [] [] [] [] [] []]; reflexivity. Qed.

Lemma sanitize_idempotent a : sanitize (sanitize a) = sanitize a.
Proof. destruct a as [[] [] [] [] [] [] [] []]; reflexivity. Qed.

Lemma map_chars_compose f g s :
  Pptx.map_chars f (Pptx.map_chars g s) = Pptx.map_chars (fun a => f (g a)) s.
Proof. induction s as [|a s IH]; simpl; [reflexivity | rewrite IH; reflexivity]. Qed.

Lemma map_chars_length f s :
  String.length (Pptx.map_chars f s) = String.length s.
Proof. induction s as [|a s IH]; simpl; [reflexivity | rewrite IH; reflexivity]. Qed.

Lemma map_chars_ext f g s :
  (forall a, f a = g a) -> Pptx.map_chars f s = Pptx.map_chars g s.
Proof.
  intros Hfg. induction s as [|a s IH]; simpl; [reflexivity|].
  rewrite Hfg, IH. reflexivity.
Qed.

(** X13. The export's file name stem consists of lower-case ASCII
    letters, digits and underscores only, is never empty, is as long as
    the title it was made from (or as "presentation" for an empty title),
    and sanitizing it again changes nothing. *)
Theorem safeFilename_is_a_safe_name title :
  Forall (fun a => filename_char a = true)
    (list_ascii_of_string (Pptx.safeFilename title))
  /\ Pptx.safeFilename title <> EmptyString
  /\ String.length (Pptx.safeFilename title)
     = String.length (or_else (Some title) "presentation")
  /\ Pptx.safeFilename (Pptx.safeFilename title) = Pptx.safeFilename title.
Proof.
  unfold Pptx.safeFilename. rewrite map_chars_compose.
  assert (Hnonempty : or_else (Some title) "presentation" <> EmptyString)
    by (apply or_else_nonempty; discriminate).
  change (fun a => Pptx.toLowerCase_char
                     (if Pptx.alphanumeric a then a else "_"%char))
    with sanitize.
  set (t := or_else (Some title) "presentation") in *.
  assert (Hout : Pptx.map_chars sanitize t <> EmptyString)
    by (destruct t; [congruence | discriminate]).
  repeat split.
  - clear. induction t as [|a t IH]; simpl; constructor;
      [apply sanitize_filename_char | exact IH].
  - exact Hout.
  - apply map_chars_length.
  - rewrite map_chars_compose.
    change (fun a => Pptx.toLowerCase_char
                       (if Pptx.alphanumeric a then a else "_"%char))
      with sanitize.
    assert (Hsame : or_else (Some (Pptx.map_chars sanitize t)) "presentation"
                    = Pptx.map_chars sanitize t).
    { unfold or_else. destruct (Pptx.map_chars sanitize t); [congruence|].
      reflexivity. }
    rewrite Hsame, map_chars_compose.
    apply map_chars_ext, sanitize_idempotent.
Qed.

Lemma images_of_slides (l : list SlideContent) :
  length (List.filter Pptx.is_image (concat (map Pptx.pptxSlide l)))
  = length (List.filter (fun s => truthy_opt (imageUrl s)) l).
Proof.
  induction l as [|s l IH]; [reflexivity|].
  cbn [map concat]. rewrite List.filter_app, length_app, IH.
  unfold Pptx.pptxSlide. cbn [List.filter].
  destruct (imageUrl s) as [[|c url]|]; reflexivity.
Qed.

(** X14. [handleDownloadPptx] writes no file without a presentation.
    With one, the file has the title page followed by one page per slide
    in order, the page of slide [k] carries the slide's title, and the
    file holds exactly as many images as there are slides with a
    non-empty image URL. *)
Theorem export_has_a_page_per_slide material :
  match material ≫= presentationContent with
  | None => Pptx.handleDownloadPptx material = None
  | Some presentation =>
      exists file,
        Pptx.handleDownloadPptx material = Some file
        /\ length (Pptx.pages file) = S (length (slides presentation))
        /\ length (List.filter Pptx.is_image (concat (Pptx.pages file)))
           = length (List.filter (fun s => truthy_opt (imageUrl s))
                       (slides presentation))
        /\ (forall k slide,
               slides presentation !! k = Some slide ->
               exists page,
                 Pptx.pages file !! S k = Some page
                 /\ In (Pptx.addText (slide_title slide)
                          {| Pptx.x := 50; Pptx.y := 25; Pptx.w := "90%";
                             Pptx.h := 75; Pptx.fontSize := 32;
                             Pptx.bold := Some true; Pptx.align := None;
                             Pptx.bullet := None; Pptx.color := Some "FFFFFF";
                             Pptx.outline := Some (1, "000000") |}) page)
  end.
Proof.
  unfold Pptx.handleDownloadPptx.
  destruct (material ≫= presentationContent) as [presentation|]; [|reflexivity].
  eexists. split; [reflexivity|]. cbn [Pptx.pages].
  split; [simpl; rewrite length_map; reflexivity|]. split.
  - cbn [concat]. rewrite List.filter_app, length_app.
    rewrite images_of_slides. reflexivity.
  - intros k slide Hk. exists (Pptx.pptxSlide slide). split.
    + assert (Hpage : (Pptx.pptxSlide <$> slides presentation) !! k
                      = Some (Pptx.pptxSlide slide))
        by (rewrite list_lookup_fmap, Hk; reflexivity).
      exact Hpage.
    + unfold Pptx.pptxSlide. apply in_or_app. right. left. reflexivity.
Qed.

(** ** The shell *)

(** X15. At any pathname at most one sidebar item is active. *)
Theorem at_most_one_nav_item_is_active pathname :
  length (List.filter (fun entry => App.isActive pathname (fst entry))
            App.navItems) <= 1.
Proof.
  unfold App.navItems. cbn [List.filter fst].
  unfold App.isActive at 1. cbn [String.eqb Ascii.eqb Bool.eqb].
  destruct (String.eqb_spec pathname "/") as [->|Hroot]; [simpl; lia|].
  destruct (String.eqb_spec pathname EmptyString) as [->|Hempty]; [simpl; lia|].
  cbn [orb].
  destruct (App.isActive pathname "/dashboard"); simpl; lia.
Qed.

(** X16. Once [App] has mounted, mounting it again from the storage it
    left gives the same theme, whatever the system preference has become
    meanwhile, and leaves the storage as it is; the stored theme and the
    [data-theme] attribute agree. *)
Theorem theme_survives_a_reload b preference :
  let reloaded :=
    {| App.localStorage := App.localStorage (App.mount b);
       App.prefers_dark := preference; App.data_theme := None |} in
  App.initialDarkMode reloaded = App.initialDarkMode b
  /\ App.data_theme (App.mount reloaded) = App.data_theme (App.mount b)
  /\ App.localStorage (App.mount reloaded) = App.localStorage (App.mount b)
  /\ App.localStorage (App.mount b) !! "theme"
     = App.data_theme (App.mount b).
Proof.
  assert (Hinit : forall p,
    App.initialDarkMode
      {| App.localStorage := App.localStorage (App.mount b);
         App.prefers_dark := p; App.data_theme := None |}
    = App.initialDarkMode b).
  { intros p. unfold App.mount, App.applyTheme.
    unfold App.initialDarkMode at 1. cbn [App.localStorage App.prefers_dark].
    rewrite lookup_insert_eq. destruct (App.initialDarkMode b); reflexivity. }
  intros reloaded.
  assert (Hsame : App.initialDarkMode reloaded = App.initialDarkMode b)
    by apply Hinit.
  split; [exact Hsame|].
  unfold App.mount. rewrite Hsame. subst reloaded.
  unfold App.applyTheme. cbn [App.data_theme App.localStorage].
  split; [reflexivity|]. split.
  - apply insert_insert_eq.
  - apply lookup_insert_eq.
Qed.

(** X17. The route of the study page binds [id], and the page reads
    [contentId]: with the parameters any path of that route can bind, the
    load effect finds no [contentId], navigates to "/" and never sets
    the material, whatever the store holds. *)
Theorem study_route_never_loads_a_material {S} `{!ContentStore S}
    path (params : gmap string string) (s : S) st :
  In (path, App.StudyPage) App.routes ->
  (forall k, is_Some (params !! k) -> In k (App.param_names path)) ->
  loadMaterial (useParams_contentId params) s st = navigate "/" st.
Proof.
  intros Hroute Hparams.
  assert (Hpath : path = "/study/:id").
  { unfold App.routes in Hroute. simpl in Hroute.
    destruct Hroute as [H|[H|[H|[H|[]]]]]; congruence. }
  subst path.
  unfold useParams_contentId.
  destruct (params !! "contentId") as [c|] eqn:Hc; [|reflexivity].
  exfalso. specialize (Hparams "contentId" (ex_intro _ c Hc)).
  vm_compute in Hparams. destruct Hparams as [H|[]]. discriminate.
Qed.

(** ** Chat bubbles *)

(** X18. In the markup of a chat bubble every line feed of the text has
    become [<br />], with what stood before it and after it treated the
    same way; a text without line feeds is used as markup unchanged, so
    nothing else is replaced or escaped; and the markup holds no line
    feed. *)
Theorem bubble_html_only_replaces_line_feeds text before after :
  bubble_html (before ++ line_feed :: after)
  = bubble_html before ++ js "<br />" ++ bubble_html after
  /\ (~ In line_feed text -> bubble_html text = text)
  /\ ~ In line_feed (bubble_html text).
Proof.
  unfold line_feed. split; [|split].
  - induction before as [|c before IH]; [reflexivity|].
    cbn [app bubble_html]. rewrite IH.
    destruct (c =? 10)%N; [rewrite <- app_assoc|]; reflexivity.
  - induction text as [|c text IH]; [reflexivity|].
    intros Hno. cbn [bubble_html].
    destruct (N.eqb_spec c 10) as [->|Hne].
    + exfalso. apply Hno. left. reflexivity.
    + rewrite IH; [reflexivity|]. intros Hin. apply Hno. right. exact Hin.
  - induction text as [|c text IH]; [intros []|].
    cbn [bubble_html]. destruct (N.eqb_spec c 10) as [->|Hne].
    + intros Hin. apply in_app_or in Hin as [Hin|Hin]; [|exact (IH Hin)].
      vm_compute in Hin. intuition discriminate.
    + intros [Hin|Hin]; [congruence | exact (IH Hin)].
Qed.

(** ** The further properties on sample inputs *)

Import Sample Tour.

(** X1 at a sample: a send from [start] that the tutor answers. *)
Lemma chat_history_after_send_witness :
  chatHistory
    <$> store (snd (handleSendMessage (tutor (quiet (Returned reply)))
                      (page biology) None start)) !! "m1"
  = Some (Some ([A; B] ++ [M; aiMessage_at reply 1005])).
Proof.
  exact (chat_history_after_send (tutor (quiet (Returned reply))) (page biology)
           biology None start {| session_handle := 0 |} eq_refl eq_refl eq_refl
           (with_chatHistory (Some [A; B; M]) biology) eq_refl).
Defined.

(** X6 at samples: no session can be started; on the map the apology is
    stored, on the store with room for one update its write throws. *)
Lemma send_without_a_session_apologises_witness :
  (fst (handleSendMessage no_session (page biology) None start) = Returned tt
   /\ chatHistory
        <$> store (snd (handleSendMessage no_session (page biology) None start))
            !! "m1"
      = Some (Some [A; B; M; errorMessage_at 1000]))
  /\ fst (handleSendMessage no_session (page biology) None start_tight)
     = Threw QuotaExceededError
  /\ isAwaitingChatResponse
       (ui (snd (handleSendMessage no_session (page biology) None start_tight)))
     = false.
Proof.
  pose proof (send_without_a_session_apologises no_session (page biology)
                biology None start offline
                (alter (merge_patch (patch_chatHistory (Some ([A; B] ++ [M]))))
                   "m1" shelf)) as Hmap.
  destruct (Hmap eq_refl eq_refl eq_refl eq_refl) as (_ & Hstored & _).
  destruct (Hstored _ eq_refl) as (Hreturned & Hfinal & _).
  pose proof (send_without_a_session_apologises no_session (page biology)
                biology None start_tight offline
                {| records :=
                     alter (merge_patch (patch_chatHistory (Some ([A; B] ++ [M]))))
                       "m1" shelf;
                   room := 0 |}) as Hbounded.
  destruct (Hbounded eq_refl eq_refl eq_refl eq_refl) as (Hflag & _ & Hrefused).
  destruct (Hrefused _ eq_refl) as (Hthrew & _).
  split; [split; [exact Hreturned | rewrite Hfinal; reflexivity]|].
  split; [exact Hthrew | exact Hflag].
Defined.

(** X5 at a sample: a send from [start] that the tutor answers; the
    store the gateway sees holds [A; B; M]. *)
Lemma gateway_sees_the_sent_message_witness :
  chatHistory
    <$> alter (merge_patch (patch_chatHistory (Some ([A; B] ++ [M])))) "m1" shelf
        !! "m1"
  = Some (Some [A; B; M])
  /\ exists evs,
      trace (snd (handleSendMessage (tutor (quiet (Returned reply)))
                    (page biology) None start))
      = [] ++ evs
      /\ Exists is_call evs
      /\ Forall (sees_the_sent_message
                   (alter (merge_patch (patch_chatHistory (Some ([A; B] ++ [M]))))
                      "m1" shelf)) evs.
Proof.
  split; [reflexivity|].
  destruct (gateway_sees_the_sent_message (tutor (quiet (Returned reply)))
              (page biology) None start eq_refl) as [Hsent _].
  exact (Hsent _ eq_refl).
Defined.

(** X3 at a sample: generating notes while the gateway is unreachable. *)
Lemma handleGenerate_reports_every_failure_witness :
  fst (handleGenerate (page biology) gen_notes
         (await FnGenerateNotes (quiet (Threw offline))) start_full)
  = Returned tt
  /\ store (snd (handleGenerate (page biology) gen_notes
                   (await FnGenerateNotes (quiet (Threw offline))) start_full))
     = store start_full
  /\ error (ui (snd (handleGenerate (page biology) gen_notes
                       (await FnGenerateNotes (quiet (Threw offline)))
                       start_full))) !! "notes"
     = Some (Some "Failed to generate notes. Please try again.").
Proof.
  exact (handleGenerate_reports_every_failure (page biology) gen_notes
           FnGenerateNotes (quiet (Threw offline)) biology start_full
           eq_refl eq_refl).
Defined.

(** X4 at a sample: the gateway is down and the store refuses the second
    write. *)
Lemma send_leaves_the_same_react_state_witness :
  ui (snd (handleSendMessage down (page biology) None start_tight))
  = with_isAwaitingChatResponse false
      (with_error (fun prev => <["chat" := None]> prev)
         (with_isAwaitingChatResponse true (with_chatInput [] idle))).
Proof.
  apply (send_leaves_the_same_react_state down (page biology) None start_tight
           {| records :=
                alter (merge_patch (patch_chatHistory (Some ([A; B] ++ [M]))))
                  "m1" shelf;
              room := 0 |});
    reflexivity.
Defined.

(** X7 at a sample: the image phase resolves with nothing. *)
Lemma presentation_is_all_or_nothing_witness :
  fst (handleGenerateFullPresentation (illustrator (Returned None))
         (page biology) start) = Returned tt
  /\ presentationContent
       <$> store (snd (handleGenerateFullPresentation
                         (illustrator (Returned None)) (page biology) start))
           !! "m1"
     = Some None
  /\ presentationError
       (ui (snd (handleGenerateFullPresentation
                   (illustrator (Returned None)) (page biology) start)))
     = Some "Failed to generate presentation images.".
Proof.
  destruct (presentation_is_all_or_nothing (illustrator (Returned None))
              (page biology) biology explanation start
              eq_refl eq_refl eq_refl eq_refl (ex_intro _ biology eq_refl)
              (keeps_quiet _ _) (fun _ => keeps_quiet _ _))
    as (Hreturned & Hcontent & Hfailure & _).
  split; [exact Hreturned|]. split; [exact Hcontent|].
  apply Hfailure.
Defined.

(** X8 at a sample: the gateway resolves with no diagram source. *)
Lemma exactly_one_diagram_notice_witness :
  exists m',
    store (snd (handleGenerateBlockDiagram writer (page biology) start)) !! "m1"
    = Some m'
    /\ (shows_diagram m',
        shows_diagram_warning m'
          (ui (snd (handleGenerateBlockDiagram writer (page biology) start))),
        shows_diagram_error
          (ui (snd (handleGenerateBlockDiagram writer (page biology) start))))
       = (false, true, false).
Proof.
  exact (exactly_one_diagram_notice writer (page biology) biology explanation
           start eq_refl eq_refl eq_refl (ex_intro _ biology eq_refl)).
Defined.

(** X9 at a sample: three clicks on next and one on previous, on two
    slides. *)
Lemma viewer_always_shows_a_slide_witness :
  is_Some (PresentationViewer.currentSlide deck
             (foldl (PresentationViewer.click deck) 0%Z
                [PresentationViewer.ClickNext; PresentationViewer.ClickNext;
                 PresentationViewer.ClickNext;
                 PresentationViewer.ClickPrevious])).
Proof. apply viewer_always_shows_a_slide. discriminate. Defined.

(** X10 at a sample: the first of two slides. *)
Lemma enabled_buttons_move_by_one_slide_witness :
  PresentationViewer.next deck 0 = 1%Z
  /\ PresentationViewer.previous (PresentationViewer.next deck 0) = 0%Z
  /\ PresentationViewer.previous 0 = 0%Z.
Proof.
  destruct (enabled_buttons_move_by_one_slide deck 0
              (ex_intro _ (slide "1" None) eq_refl))
    as (_ & Hnext & Hfirst & _).
  destruct (Hnext eq_refl) as [Hmoved Hback].
  split; [exact Hmoved|]. split; [exact Hback | exact (Hfirst eq_refl)].
Defined.

(** X17 at a sample: the link [/study/m1] while [m1] is stored. *)
Lemma study_route_never_loads_a_material_witness :
  loadMaterial (useParams_contentId {[ "id" := "m1" ]}) shelf
    {| shown := None; navigations := [] |}
  = {| shown := None; navigations := ["/"] |}.
Proof.
  apply (study_route_never_loads_a_material "/study/:id" {[ "id" := "m1" ]}
           shelf {| shown := None; navigations := [] |}).
  - right. left. reflexivity.
  - intros k [v Hk]. destruct (decide (k = "id")) as [->|Hne].
    + left. reflexivity.
    + rewrite lookup_singleton_ne in Hk by congruence. discriminate.
Defined.

(** X11 at a sample: play, the first narration ends, the deferred
    narration starts and ends, then a click on next. *)
Lemma player_speaks_one_scene_at_a_time_witness :
  exclusive false
    (synthesis
       (foldl (handle film) mounted
          [ClickPlayPause; UtteranceEnded Advance; TimeoutFired;
           UtteranceEnded Stop; ClickNext])) = true
  /\ Forall (narrates film)
       (synthesis
          (foldl (handle film) mounted
             [ClickPlayPause; UtteranceEnded Advance; TimeoutFired;
              UtteranceEnded Stop; ClickNext]))
  /\ is_Some
       (item film
          (currentSceneIndex
             (foldl (handle film) mounted
                [ClickPlayPause; UtteranceEnded Advance; TimeoutFired;
                 UtteranceEnded Stop; ClickNext]))).
Proof.
  destruct (player_speaks_one_scene_at_a_time film
              [ClickPlayPause; UtteranceEnded Advance; TimeoutFired;
               UtteranceEnded Stop; ClickNext])
    as (Hexclusive & Hsaid & Hscene).
  split; [exact Hexclusive|]. split; [exact Hsaid|].
  apply Hscene. discriminate.
Defined.

(** X12 at a sample: the browser reports [installed], then the select
    submits "Daniel". *)
Lemma narration_voice_is_an_available_english_voice_witness :
  exists v,
    Voices.selectedVoice
      (foldl Voices.after Voices.unloaded
         [Voices.VoicesChanged installed; Voices.Chose "Daniel"]) = Some v
    /\ In v
         (Voices.availableVoices
            (foldl Voices.after Voices.unloaded
               [Voices.VoicesChanged installed; Voices.Chose "Daniel"])).
Proof.
  destruct (narration_voice_is_an_available_english_voice
              [Voices.VoicesChanged installed; Voices.Chose "Daniel"])
    as [_ Hselected].
  apply Hselected. discriminate.
Defined.

(** X14 at a sample: the export of [illustrated]. *)
Lemma export_has_a_page_per_slide_witness :
  exists file,
    Pptx.handleDownloadPptx (Some illustrated) = Some file
    /\ length (Pptx.pages file) = 3
    /\ length (List.filter Pptx.is_image (concat (Pptx.pages file))) = 1.
Proof.
  destruct (export_has_a_page_per_slide (Some illustrated))
    as (file & Hfile & Hpages & Himages & _).
  exists file. split; [exact Hfile|]. split; [exact Hpages | exact Himages].
Defined.

(** X18 at a sample: a line feed becomes a break, and markup in the
    message reaches the bubble as it is. *)
Lemma bubble_html_only_replaces_line_feeds_witness :
  bubble_html (js "Osmosis:" ++ line_feed :: js "<b>water</b> moves.")
  = js "Osmosis:<br /><b>water</b> moves.".
Proof.
  destruct (bubble_html_only_replaces_line_feeds (js "Osmosis:")
              (js "Osmosis:") (js "<b>water</b> moves."))
    as (Hbreak & Hbefore & _).
  destruct (bubble_html_only_replaces_line_feeds (js "<b>water</b> moves.")
              [] []) as (_ & Hafter & _).
  rewrite Hbreak, Hbefore, Hafter; [reflexivity|..];
    vm_compute; intuition discriminate.
Defined.
